(** * abscomp: catalog reindexing and comparison of two Audiobookshelf libraries

    A shallow embedding of [abscomp.py] and the properties of its record
    model, its asin reindexing, its comparator [compare_libs], its fetch
    loop [get_library] and its writer [write_output].

    Python's [dict] keeps insertion order and that order decides which
    record survives an asin collision, so a dictionary is an association
    list in insertion order with pairwise distinct keys.  Exceptions are
    values of an error monad. *)

From stdpp Require Import base option list strings gmap.
From Stdlib Require Import ZArith.

Open Scope string_scope.
Open Scope nat_scope.
Open Scope list_scope.

Set Warnings "-register-all".

(** ** Exceptions *)

(** The exceptions the modelled code can raise.  [Exit] is [typer.Exit].
    [OutsideModel] is no Python exception: it marks a state that the
    declared types exclude (a dangling reference, a field value that is
    not a [str]). *)
Inductive exn : Type :=
| KeyError (k : string)
| TypeError
| RuntimeError
| FrozenInstanceError
| HTTPError
| Exit (code : Z)
| OutsideModel.

Inductive res (A : Type) : Type :=
| Ok (a : A)
| Raise (e : exn).
Arguments Ok {A} a.
Arguments Raise {A} e.

#[global] Instance res_ret : MRet res := λ A a, Ok a.
#[global] Instance res_bind : MBind res := λ A B f m,
  match m with
  | Ok a => f a
  | Raise e => Raise e
  end.

(** ** The record model *)

(** [@dataclass(eq=True, frozen=True) class Book], fields in declaration
    order, each annotated [str]. *)
Record Book : Type := mkBook {
  id : string;
  title : string;
  author : string;
  series : string;
  year : string;
  asin : string;
  isbn : string;
  added : string;
  files : string;
  size : string
}.

(** ** Insertion-ordered dictionaries *)

Module PyDict.
Section Ops.
Context {V : Type}.

(** [d.get(k)]: the value stored under [k], if any. *)
Fixpoint lookup (d : list (string * V)) (k : string) : option V :=
  match d with
  | [] => None
  | (k', v) :: rest => if String.eqb k' k then Some v else lookup rest k
  end.

(** [k in d] *)
Definition contains (k : string) (d : list (string * V)) : bool :=
  match lookup d k with
  | Some _ => true
  | None => false
  end.

(** [d[k]], which raises [KeyError] on an absent key. *)
Definition getitem (d : list (string * V)) (k : string) : res V :=
  match lookup d k with
  | Some v => Ok v
  | None => Raise (KeyError k)
  end.

(** [d[k] = v]: an existing key keeps its position and gets the new
    value, a new key goes to the end. *)
Fixpoint setitem (d : list (string * V)) (k : string) (v : V)
  : list (string * V) :=
  match d with
  | [] => [(k, v)]
  | (k', v') :: rest =>
      if String.eqb k' k then (k', v) :: rest
      else (k', v') :: setitem rest k v
  end.

Definition keys (d : list (string * V)) : list string := d.*1.
Definition values (d : list (string * V)) : list V := d.*2.

(** What every Python dictionary satisfies: no key occurs twice. *)
Definition wf (d : list (string * V)) : Prop := NoDup (keys d).
End Ops.
End PyDict.

Abbreviation pydict V := (list (string * V)) (only parsing).

(** ** The comparator *)

(** The value [compare_libs] returns: [{'both': ..., 'missing': ...}]. *)
Record partition : Type := mkPartition {
  both : pydict Book;
  missing : pydict Book
}.

(** The body of [for ab_one in lib_one], over the keys still to visit. *)
Fixpoint compare_loop (todo : list string) (lib_one lib_two : pydict Book)
    (both_books missing_books : pydict Book) : res partition :=
  match todo with
  | [] => Ok {| both := both_books; missing := missing_books |}
  | ab_one :: todo' =>
      if PyDict.contains ab_one lib_two then
        b ← PyDict.getitem lib_one ab_one;
        compare_loop todo' lib_one lib_two
          (PyDict.setitem both_books ab_one b) missing_books
      else
        b ← PyDict.getitem lib_one ab_one;
        compare_loop todo' lib_one lib_two
          both_books (PyDict.setitem missing_books ab_one b)
  end.

Definition compare_libs (lib_one lib_two : pydict Book) : res partition :=
  compare_loop (PyDict.keys lib_one) lib_one lib_two [] [].

(** ** Methods the [dataclass] decorator generates for [Book] *)

(** The tuple of all fields, in declaration order, that the generated
    [__eq__] and [__hash__] are computed from. *)
Definition Book_fields (b : Book) : list string :=
  [id b; title b; author b; series b; year b; asin b; isbn b;
   added b; files b; size b].

(** [==] on tuples of strings: same length and equal elements. *)
Fixpoint tuple_eq (t1 t2 : list string) : bool :=
  match t1, t2 with
  | [], [] => true
  | x :: t1', y :: t2' => String.eqb x y && tuple_eq t1' t2'
  | _, _ => false
  end.

(** [Book.__eq__] as generated by [eq=True]. *)
Definition Book_eq (a b : Book) : bool :=
  tuple_eq (Book_fields a) (Book_fields b).

(** [Book.__hash__] as generated by [eq=True, frozen=True]: the hash of
    the field tuple, for whatever [hash] the interpreter uses on tuples. *)
Definition Book_hash (hash : list string → Z) (b : Book) : Z :=
  hash (Book_fields b).

(** [dataclasses.asdict]: field names with their values, in declaration
    order. *)
Definition asdict (b : Book) : pydict string :=
  [("id", id b); ("title", title b); ("author", author b);
   ("series", series b); ("year", year b); ("asin", asin b);
   ("isbn", isbn b); ("added", added b); ("files", files b);
   ("size", size b)].

(** ** The asin reindexing of [main] *)

(** Truth value of a [str]: the empty string is false. *)
Definition truthy (s : string) : bool := negb (String.eqb s "").

(** The loop [for ab in lib.values(): if ab.asin and ab.asin not in
    lib_asin: lib_asin[ab.asin] = ab] of [main], over the records still
    to visit. *)
Fixpoint reindex_loop (todo : list Book) (lib_asin : pydict Book)
  : pydict Book :=
  match todo with
  | [] => lib_asin
  | ab :: todo' =>
      if truthy (asin ab) && negb (PyDict.contains (asin ab) lib_asin) then
        reindex_loop todo' (PyDict.setitem lib_asin (asin ab) ab)
      else
        reindex_loop todo' lib_asin
  end.

(** [main] runs the loop once per library from an empty dictionary. *)
Definition reindex (lib : pydict Book) : pydict Book :=
  reindex_loop (PyDict.values lib) [].

(** ** The fetch loop of [get_library] *)

(** A decoded JSON document, the value of [response.json()]. *)
Inductive json : Type :=
| JNull
| JBool (b : bool)
| JNum (n : Z)
| JStr (s : string)
| JArr (items : list json)
| JObj (fields : list (string * json)).

(** [j[k]] for a string [k]: only an object can be indexed by a string,
    and an absent key raises [KeyError]. *)
Definition subscript (j : json) (k : string) : res json :=
  match j with
  | JObj fields => PyDict.getitem fields k
  | _ => Raise TypeError
  end.

(** [j[k1][k2]...], left to right. *)
Fixpoint subscripts (j : json) (path : list string) : res json :=
  match path with
  | [] => Ok j
  | k :: path' => j' ← subscript j k; subscripts j' path'
  end.

Fixpoint chars (s : string) : list json :=
  match s with
  | EmptyString => []
  | String c s' => JStr (String c EmptyString) :: chars s'
  end.

(** What [for result in j] visits: the elements of a list, the keys of an
    object, the characters of a string; nothing else is iterable. *)
Definition iterate (j : json) : res (list json) :=
  match j with
  | JArr items => Ok items
  | JObj fields => Ok (JStr <$> PyDict.keys fields)
  | JStr s => Ok (chars s)
  | _ => Raise TypeError
  end.

(** [Book]'s fields are declared [str] and the dataclass does not check
    them; a value of another type is outside the typed model.  The module
    [Raw] below follows the program on values of any kind. *)
Definition as_str (j : json) : res string :=
  match j with
  | JStr s => Ok s
  | _ => Raise OutsideModel
  end.

(** The right-hand side [Book(id=result['id'], title=..., ...)]: the ten
    subscript chains are evaluated in the order of the keyword arguments,
    so the first absent key decides the exception. *)
Definition Book_of_result (result : json) : res Book :=
  j_id ← subscripts result ["id"];
  j_title ← subscripts result ["media"; "metadata"; "title"];
  j_author ← subscripts result ["media"; "metadata"; "authorName"];
  j_series ← subscripts result ["media"; "metadata"; "seriesName"];
  j_year ← subscripts result ["media"; "metadata"; "publishedYear"];
  j_asin ← subscripts result ["media"; "metadata"; "asin"];
  j_isbn ← subscripts result ["media"; "metadata"; "isbn"];
  j_added ← subscripts result ["addedAt"];
  j_files ← subscripts result ["media"; "numAudioFiles"];
  j_size ← subscripts result ["media"; "size"];
  s_id ← as_str j_id;
  s_title ← as_str j_title;
  s_author ← as_str j_author;
  s_series ← as_str j_series;
  s_year ← as_str j_year;
  s_asin ← as_str j_asin;
  s_isbn ← as_str j_isbn;
  s_added ← as_str j_added;
  s_files ← as_str j_files;
  s_size ← as_str j_size;
  Ok {| id := s_id; title := s_title; author := s_author;
        series := s_series; year := s_year; asin := s_asin;
        isbn := s_isbn; added := s_added; files := s_files;
        size := s_size |}.

(** The loop [for result in ...: title_library[result['id']] = Book(...)].
    Nothing in it catches the exception of an entry: the first entry that
    fails ends the loop with that exception. *)
Fixpoint fetch_loop (todo : list json) (title_library : pydict Book)
  : res (pydict Book) :=
  match todo with
  | [] => Ok title_library
  | result :: todo' =>
      b ← Book_of_result result;
      fetch_loop todo' (PyDict.setitem title_library (id b) b)
  end.

(** What [requests.get] hands back: whether the status is a success, and
    the decoded body ([None] when the body is not JSON). *)
Record response : Type := mkResponse {
  status_ok : bool;
  json_body : option json
}.

(** [get_library], from the response on.  [raise_for_status] raises on a
    failure status; the [try] turns a [JSONDecodeError] into
    [typer.Exit(code=1)] and catches nothing else. *)
Definition get_library (r : response) : res (pydict Book) :=
  if status_ok r then
    match json_body r with
    | None => Raise (Exit 1)
    | Some j =>
        results ← subscript j "results";
        todo ← iterate results;
        fetch_loop todo []
    end
  else Raise HTTPError.

(** ** The writer *)

(** What a written file holds: the rows handed to [csv.writer], or the
    object handed to [json.dump]. *)
Inductive file_content : Type :=
| CsvFile (rows : list (list string))
| JsonFile (obj : pydict (pydict string)).

(** The header row of every csv file. *)
Definition csv_header : list string :=
  ["Title"; "Author"; "Series"; "Year"; "asin"; "isbn"].

(** [[*asdict(obj=audiobook).values()]]: the row written for a record. *)
Definition csv_row (audiobook : Book) : list string :=
  PyDict.values (asdict audiobook).

(** The loop [for k, v in contents.items(): content_json[k] = asdict(v)]. *)
Fixpoint json_loop (todo : pydict Book) (content_json : pydict (pydict string))
  : pydict (pydict string) :=
  match todo with
  | [] => content_json
  | (k, v) :: todo' => json_loop todo' (PyDict.setitem content_json k (asdict v))
  end.

(** The figures of the summary panel. *)
Record summary : Type := mkSummary {
  one_entries : nat;
  one_asin_len : nat;
  one_missing_len : nat;
  two_entries : nat;
  two_asin_len : nat;
  two_missing_len : nat;
  len_both : nat
}.

Section Files.
(** [NOW], the date stamp computed when the module is loaded. *)
Variable NOW : string.

Definition FILEBASE : string := "abscomp_books_" +:+ NOW +:+ "_".

(** The text of the two paths, [f'{FILEBASE}{out_type}.csv'] and
    [f'{FILEBASE}{out_type}.json'].  A file system below is keyed by this
    text: for the three names [main] uses the text is the name of a file
    in the working directory.  For an [out_type] with a separator in it
    [Path] can give one file to two texts, which is not modelled. *)
Definition csv_path (out_type : string) : string :=
  FILEBASE +:+ out_type +:+ ".csv".
Definition json_path (out_type : string) : string :=
  FILEBASE +:+ out_type +:+ ".json".

(** [write_output], on a file system that maps a path to what was last
    written there (mode ['w'] replaces the file). *)
Definition write_output (fs : gmap string file_content)
    (contents : pydict Book) (out_type : string) (flag_j flag_c : bool)
  : gmap string file_content :=
  let fs :=
    if flag_c then
      <[csv_path out_type :=
          CsvFile (csv_header :: (csv_row <$> PyDict.values contents))]> fs
    else fs in
  if flag_j then
    <[json_path out_type := JsonFile (json_loop contents [])]> fs
  else fs.

(** [main], from the two responses on (the configuration only decides
    which requests are sent), for responses of the typed model; [Raw.main]
    below is the run on values of any kind, where the reindexing can
    raise. *)
Definition main (resp_one resp_two : response) (flag_c_csv flag_j_json : bool)
    (fs : gmap string file_content)
  : res (gmap string file_content * summary) :=
  lib_one ← get_library resp_one;
  lib_two ← get_library resp_two;
  let lib_one_asin := reindex lib_one in
  let lib_two_asin := reindex lib_two in
  first_compare ← compare_libs lib_one_asin lib_two_asin;
  second_compare ← compare_libs lib_two_asin lib_one_asin;
  let fs := write_output fs (both first_compare) "both" flag_j_json flag_c_csv in
  let fs := write_output fs lib_one "one" flag_j_json flag_c_csv in
  let fs := write_output fs lib_two "two_full" flag_j_json flag_c_csv in
  Ok (fs, {| one_entries := length lib_one;
             one_asin_len := length lib_one_asin;
             one_missing_len := length (missing second_compare);
             two_entries := length lib_two;
             two_asin_len := length lib_two_asin;
             two_missing_len := length (missing first_compare);
             len_both := length (both first_compare) |}).
End Files.

(** ** The comparator on a store of dictionary objects *)

(** Python passes dictionaries by reference and [d[k] = v] updates the
    object in place.  To speak about what [compare_libs] does to its
    arguments, this second embedding runs the same statements on a store
    of dictionary objects: a reference is an index into the store. *)
Module Store.
Abbreviation ref := nat (only parsing).
Abbreviation store := (list (list (string * Book))) (only parsing).

(** Computations that read and update the store and may raise. *)
Definition M (A : Type) : Type := store → res (A * store).

Definition ret {A} (a : A) : M A := λ h, Ok (a, h).
Definition bind {A B} (m : M A) (f : A → M B) : M B := λ h,
  match m h with
  | Ok (a, h') => f a h'
  | Raise e => Raise e
  end.
Definition raise {A} (e : exn) : M A := λ _, Raise e.

Notation "'let!' x ':=' m 'in' k" := (bind m (λ x, k))
  (at level 10, x name, m at level 100, k at level 200, only parsing).

(** [{}]: a new, empty dictionary object. *)
Definition new_dict : M ref := λ h, Ok (length h, h ++ [[]]).

(** The dictionary a reference points to. *)
Definition deref (a : ref) : M (pydict Book) := λ h,
  match h !! a with
  | Some d => Ok (d, h)
  | None => Raise OutsideModel
  end.

(** [k in a] *)
Definition contains (k : string) (a : ref) : M bool :=
  let! d := deref a in
  ret (PyDict.contains k d).

(** [a[k]] *)
Definition getitem (a : ref) (k : string) : M Book :=
  let! d := deref a in
  match PyDict.lookup d k with
  | Some b => ret b
  | None => raise (KeyError k)
  end.

(** [a[k] = b], in place. *)
Definition setitem (a : ref) (k : string) (b : Book) : M unit :=
  let! d := deref a in
  λ h, Ok (tt, <[a := PyDict.setitem d k b]> h).

(** The steps of [for k in a: body(k)] at the positions [todo], for a
    dictionary that had [n] entries when the loop began.  The iterator
    reads the object anew at every step and raises [RuntimeError] when
    its size has changed. *)
Fixpoint for_steps (a : ref) (n : nat) (todo : list nat)
    (body : string → M unit) : M unit :=
  match todo with
  | [] => ret tt
  | i :: todo' =>
      let! d := deref a in
      if Nat.eqb (length d) n then
        match PyDict.keys d !! i with
        | Some k => let! _ := body k in for_steps a n todo' body
        | None => raise RuntimeError
        end
      else raise RuntimeError
  end.

(** [for k in a: body(k)] *)
Definition for_in (a : ref) (body : string → M unit) : M unit :=
  let! d := deref a in
  for_steps a (length d) (seq 0 (length d)) body.

(** The body of the loop of [compare_libs] for the key [ab_one]. *)
Definition compare_body (lib_one lib_two both_books missing_books : ref)
    (ab_one : string) : M unit :=
  let! c := contains ab_one lib_two in
  if c then
    let! b := getitem lib_one ab_one in
    setitem both_books ab_one b
  else
    let! b := getitem lib_one ab_one in
    setitem missing_books ab_one b.

(** [compare_libs] on references; the result holds the references of
    the two new dictionaries, [both] first. *)
Definition compare_libs (lib_one lib_two : ref) : M (ref * ref) :=
  let! both_books := new_dict in
  let! missing_books := new_dict in
  let! _ := for_in lib_one
              (compare_body lib_one lib_two both_books missing_books) in
  ret (both_books, missing_books).
End Store.

(** ** Notions the statements below use *)

(** The key of an entry is a key of the other catalog. *)
Definition shared (other : pydict Book) (kv : string * Book) : Prop :=
  kv.1 ∈ PyDict.keys other.

#[global] Instance shared_dec other kv : Decision (shared other kv) :=
  list_elem_of_dec kv.1 (PyDict.keys other).

(** No value is to be found at [path] in [j] because a key on the path is
    missing from the object it is looked up in. *)
Fixpoint absent (path : list string) (j : json) : Prop :=
  match path, j with
  | k :: path', JObj fields =>
      match PyDict.lookup fields k with
      | None => True
      | Some j' => absent path' j'
      end
  | _, _ => False
  end.

(** Where [get_library] reads the fields [id], [title] and [author]. *)
Definition required_paths : list (list string) :=
  [["id"]; ["media"; "metadata"; "title"];
   ["media"; "metadata"; "authorName"]].

(** The row the interface description asks of the writer: six fields,
    and three more in the dump of a full catalog. *)
Definition described_row (full_catalog : bool) (b : Book) : list string :=
  [title b; author b; series b; year b; asin b; isbn b]
  ++ (if full_catalog then [added b; files b; size b] else []).

(** The names of the fields of [Book], in declaration order. *)
Definition field_names : list string :=
  ["id"; "title"; "author"; "series"; "year"; "asin"; "isbn"; "added";
   "files"; "size"].

(** ** Instances of the frozen dataclass *)

(** To say what [frozen=True] does, a record is seen as the interpreter
    holds it: an instance with its class and its attribute dictionary,
    and the methods [__init__], [__setattr__] and [__delattr__] that the
    decorator generates. *)
Module Instance.
Record instance : Type := mkInstance {
  class_of : string;
  attributes : pydict string
}.

(** What an assignment to or a deletion of an attribute can raise. *)
Inductive attr_exn : Type :=
| FrozenInstanceError
| AttributeError.

Inductive result : Type :=
| Updated (self : instance)
| Raised (e : attr_exn).

(** [object.__setattr__(self, name, value)] *)
Definition object_setattr (self : instance) (name value : string)
  : instance :=
  {| class_of := class_of self;
     attributes := PyDict.setitem (attributes self) name value |}.

(** [object.__delattr__(self, name)] *)
Definition object_delattr (self : instance) (name : string) : result :=
  if PyDict.contains name (attributes self) then
    Updated {| class_of := class_of self;
               attributes := filter (λ kv, kv.1 ≠ name) (attributes self) |}
  else Raised AttributeError.

(** The test both generated methods begin with:
    [type(self) is cls or name in fields]. *)
Definition frozen (cls : string) (fields : list string) (self : instance)
    (name : string) : bool :=
  String.eqb (class_of self) cls || bool_decide (name ∈ fields).

(** [Book.__setattr__] as generated by [frozen=True]. *)
Definition Book_setattr (self : instance) (name value : string) : result :=
  if frozen "Book" field_names self name then Raised FrozenInstanceError
  else Updated (object_setattr self name value).

(** [Book.__delattr__] as generated by [frozen=True]. *)
Definition Book_delattr (self : instance) (name : string) : result :=
  if frozen "Book" field_names self name then Raised FrozenInstanceError
  else object_delattr self name.

(** [Book.__init__] as generated for a frozen class: every field is
    stored with [object.__setattr__], in declaration order. *)
Definition Book_init (b : Book) : instance :=
  let self := {| class_of := "Book"; attributes := [] |} in
  let self := object_setattr self "id" (id b) in
  let self := object_setattr self "title" (title b) in
  let self := object_setattr self "author" (author b) in
  let self := object_setattr self "series" (series b) in
  let self := object_setattr self "year" (year b) in
  let self := object_setattr self "asin" (asin b) in
  let self := object_setattr self "isbn" (isbn b) in
  let self := object_setattr self "added" (added b) in
  let self := object_setattr self "files" (files b) in
  object_setattr self "size" (size b).

(** A statement on an instance: [self.name = value] or [del self.name]. *)
Inductive statement : Type :=
| Assign (name value : string)
| Delete (name : string).

Definition execute (self : instance) (s : statement) : result :=
  match s with
  | Assign name value => Book_setattr self name value
  | Delete name => Book_delattr self name
  end.

(** A sequence of statements on one instance, each in a [try] of its
    own, so that the sequence goes on after a statement that raises. *)
Fixpoint attempts (self : instance) (prog : list statement) : instance :=
  match prog with
  | [] => self
  | s :: rest =>
      match execute self s with
      | Updated self' => attempts self' rest
      | Raised _ => attempts self rest
      end
  end.
End Instance.

(** The six files a run can write. *)
Definition written_paths (NOW : string) : list string :=
  [csv_path NOW "both"; json_path NOW "both";
   csv_path NOW "one"; json_path NOW "one";
   csv_path NOW "two_full"; json_path NOW "two_full"].

(** ** Sample data *)

Module Sample.
(** A record with the given id and asin. *)
Definition book (i a : string) : Book :=
  {| id := i; title := "T" +:+ i; author := "A" +:+ i; series := "";
     year := "2020"; asin := a; isbn := ""; added := "1700000000000";
     files := "3"; size := "1024" |}.

Definition A1 : Book := book "1" "X".
Definition A2 : Book := book "2" "".
Definition A3 : Book := book "3" "X".
Definition A4 : Book := book "4" "Y".
Definition A5 : Book := book "5" "Z".

(** The catalog of the reindexing example: A3 repeats the asin of A1 and
    A2 has none. *)
Definition catalog : pydict Book := [("1", A1); ("2", A2); ("3", A3)].

(** The entry of a response for a record. *)
Definition entry (b : Book) : json :=
  JObj [("id", JStr (id b));
        ("media", JObj [("metadata",
                         JObj [("title", JStr (title b));
                               ("authorName", JStr (author b));
                               ("seriesName", JStr (series b));
                               ("publishedYear", JStr (year b));
                               ("asin", JStr (asin b));
                               ("isbn", JStr (isbn b))]);
                        ("numAudioFiles", JStr (files b));
                        ("size", JStr (size b))]);
        ("addedAt", JStr (added b))].

(** An entry without a title. *)
Definition untitled : json :=
  JObj [("id", JStr "9");
        ("media", JObj [("metadata", JObj [("authorName", JStr "A9")])]);
        ("addedAt", JStr "1700000000000")].

Definition reply (entries : list json) : response :=
  {| status_ok := true;
     json_body := Some (JObj [("results", JArr entries)]) |}.

(** The date stamp of the sample run. *)
Definition NOW : string := "240204".

(** The catalogs of the comparison example. *)
Definition left : pydict Book := [("X", A1); ("Y", A4)].
Definition right : pydict Book := [("X", A3)].

(** A response whose second entry has no title. *)
Definition reply_untitled : response := reply [entry A1; untitled; entry A4].

(** Two libraries that share the asin X; Y is only in the first and Z
    only in the second. *)
Definition reply_one : response := reply [entry A1; entry A4].
Definition reply_two : response := reply [entry A3; entry A5].
End Sample.

(** ** The configuration check of [load_config] *)

(** A value of a parsed TOML document, as [tomllib.load] returns it.
    Floats and dates keep their source text. *)
Inductive toml : Type :=
| TStr (s : string)
| TInt (n : Z)
| TFloat (repr : string)
| TBool (b : bool)
| TDate (repr : string)
| TArr (items : list toml)
| TTable (fields : list (string * toml)).

(** How [load_config] can end without a configuration once the file is
    parsed.  [RejectedConfig] is the second [case]: the error message is
    printed and [typer.Exit(code=1)] raised, unless printing the message
    raises first (the message holds the path and the document, and the
    console reads square brackets in them as markup).  The other two end
    the first [case]: the [AttributeError] of [v.items()] on a value that
    is no table, and the [TypeError] of [Text.append] on a value that is
    no string. *)
Inductive config_exn : Type :=
| RejectedConfig
| AttributeError
| TextTypeError.

Inductive outcome (A : Type) : Type :=
| Done (a : A)
| Failed (e : config_exn).
Arguments Done {A} a.
Arguments Failed {A} e.

(** The class pattern [str()]. *)
Definition is_str (v : toml) : bool :=
  match v with
  | TStr _ => true
  | _ => false
  end.

(** The literal pattern ['1']. *)
Definition is_one (v : toml) : bool :=
  match v with
  | TStr s => String.eqb s "1"
  | _ => false
  end.

(** One [key: pattern] item of a mapping pattern: the key is present and
    its value matches.  Keys the pattern does not name are ignored. *)
Definition has_key (pattern : toml → bool) (t : pydict toml) (key : string)
  : bool :=
  match PyDict.lookup t key with
  | Some v => pattern v
  | None => false
  end.

(** [{'version': '1'}] *)
Definition match_schema (v : toml) : bool :=
  match v with
  | TTable t => has_key is_one t "version"
  | _ => false
  end.

(** [{'url': str(), 'token': str(), 'library': str()}] *)
Definition match_library (v : toml) : bool :=
  match v with
  | TTable t =>
      has_key is_str t "url" && has_key is_str t "token"
      && has_key is_str t "library"
  | _ => false
  end.

(** The first [case] of [match config]. *)
Definition match_config (config : pydict toml) : bool :=
  has_key match_schema config "schema"
  && has_key match_library config "abs_lib_one"
  && has_key match_library config "abs_lib_two".

(** The inner loop [for k2, v2 in v.items(): ... append(text=v2)]. *)
Fixpoint print_values (items : pydict toml) : outcome unit :=
  match items with
  | [] => Done tt
  | (k2, v2) :: rest =>
      if is_str v2 then print_values rest else Failed TextTypeError
  end.

(** The outer loop [for k, v in config.items()], which builds the text of
    the panel. *)
Fixpoint print_config (items : pydict toml) : outcome unit :=
  match items with
  | [] => Done tt
  | (k, v) :: rest =>
      match v with
      | TTable t =>
          match print_values t with
          | Done _ => print_config rest
          | Failed e => Failed e
          end
      | _ => Failed AttributeError
      end
  end.

(** [load_config], from the parsed document on. *)
Definition load_config (config : pydict toml) : outcome (pydict toml) :=
  if match_config config then
    match print_config config with
    | Done _ => Done config
    | Failed e => Failed e
    end
  else Failed RejectedConfig.

(** [v[k]] on a TOML value. *)
Definition toml_subscript (v : toml) (k : string) : res toml :=
  match v with
  | TTable t => PyDict.getitem t k
  | _ => Raise TypeError
  end.

(** The three settings [main] reads for one library:
    [config[name]['url']], [config[name]['token']] and
    [config[name]['library']]. *)
Definition library_settings (config : pydict toml) (name : string)
  : res (toml * toml * toml) :=
  lib ← PyDict.getitem config name;
  url ← toml_subscript lib "url";
  lib ← PyDict.getitem config name;
  token ← toml_subscript lib "token";
  lib ← PyDict.getitem config name;
  library ← toml_subscript lib "library";
  Ok (url, token, library).

(** A document of the type [load_config] declares for its result,
    [dict[str, dict[str, str]]]: every value is a table of strings. *)
Definition typed_config (config : pydict toml) : Prop :=
  ∀ k v, (k, v) ∈ config →
    ∃ t, v = TTable t ∧ ∀ k2 v2, (k2, v2) ∈ t → ∃ s, v2 = TStr s.

(** The schema, said of the document: the version is the string [1] and
    both libraries give [url], [token] and [library] as strings. *)
Definition schema_holds (config : pydict toml) : Prop :=
  (∃ t, PyDict.lookup config "schema" = Some (TTable t)
        ∧ PyDict.lookup t "version" = Some (TStr "1"))
  ∧ ∀ name, name = "abs_lib_one" ∨ name = "abs_lib_two" →
      ∃ t url token library,
        PyDict.lookup config name = Some (TTable t)
        ∧ PyDict.lookup t "url" = Some (TStr url)
        ∧ PyDict.lookup t "token" = Some (TStr token)
        ∧ PyDict.lookup t "library" = Some (TStr library).

(** The exceptions an entry of a response can end the fetch with. *)
Definition entry_exn (e : exn) : Prop :=
  (∃ k, e = KeyError k) ∨ e = TypeError ∨ e = OutsideModel.

(** ** More sample data *)

Module SampleConfig.
Definition library (url token lib : string) : toml :=
  TTable [("url", TStr url); ("token", TStr token); ("library", TStr lib)].

(** A configuration file as the program expects it. *)
Definition config : pydict toml :=
  [("schema", TTable [("version", TStr "1")]);
   ("abs_lib_one", library "http://one:13378" "token-one" "lib_one");
   ("abs_lib_two", library "http://two:13378" "token-two" "lib_two")].
End SampleConfig.

(** ** The program on values as the server sends them *)

(** [Book] declares its fields [str], but the dataclass checks nothing and
    [get_library] stores whatever the response holds: numbers, null,
    lists.  This third embedding follows the code on such values.  Its
    records have JSON values as fields, its dictionaries have JSON values
    as keys, and the operations that hash a key raise [TypeError] on a
    list or an object. *)
Module Raw.

(** The exceptions of this part of the program; a [KeyError] carries the
    key that was not found. *)
Inductive exn : Type :=
| KeyError (key : json)
| TypeError
| HTTPError
| Exit (code : Z).

Inductive res (A : Type) : Type :=
| Ok (a : A)
| Raise (e : exn).
Arguments Ok {A} a.
Arguments Raise {A} e.

#[global] Instance res_ret : MRet res := λ A a, Ok a.
#[global] Instance res_bind : MBind res := λ A B f m,
  match m with
  | Ok a => f a
  | Raise e => Raise e
  end.

(** [bool(v)]: null, false, zero and everything empty are false. *)
Definition truthy (v : json) : bool :=
  match v with
  | JNull => false
  | JBool b => b
  | JNum n => negb (Z.eqb n 0)
  | JStr s => negb (String.eqb s "")
  | JArr items => match items with [] => false | _ => true end
  | JObj fields => match fields with [] => false | _ => true end
  end.

(** What [hash] and [==] make of a value used as a key: two values are
    the same key exactly when they have the same class here.  [True] is
    the key 1 and [False] the key 0. *)
Inductive hkey : Type :=
| KNone
| KInt (n : Z)
| KStr (s : string).

#[global] Instance hkey_eq_dec : EqDecision hkey.
Proof. solve_decision. Defined.

(** The class of a value as a key; lists and objects cannot be hashed. *)
Definition key_of (v : json) : option hkey :=
  match v with
  | JNull => Some KNone
  | JBool b => Some (KInt (if b then 1 else 0))
  | JNum n => Some (KInt n)
  | JStr s => Some (KStr s)
  | JArr _ => None
  | JObj _ => None
  end.

(** The record as the dataclass holds it. *)
Record Book : Type := mkBook {
  id : json;
  title : json;
  author : json;
  series : json;
  year : json;
  asin : json;
  isbn : json;
  added : json;
  files : json;
  size : json
}.

(** [dataclasses.asdict] *)
Definition asdict (b : Book) : pydict json :=
  [("id", id b); ("title", title b); ("author", author b);
   ("series", series b); ("year", year b); ("asin", asin b);
   ("isbn", isbn b); ("added", added b); ("files", files b);
   ("size", size b)].

Section Dict.
Context {V : Type}.

(** A dictionary: its entries in insertion order, each the class of the
    key, the key as it was first inserted, and the value. *)
Fixpoint find (d : list (hkey * (json * V))) (h : hkey) : option (json * V) :=
  match d with
  | [] => None
  | (h', e) :: rest => if decide (h' = h) then Some e else find rest h
  end.

(** The update of [d[k] = v] for a key of class [h]: an entry of that
    class keeps its position and its key and gets the value, a new entry
    goes to the end. *)
Fixpoint store (d : list (hkey * (json * V))) (h : hkey) (k : json) (v : V)
  : list (hkey * (json * V)) :=
  match d with
  | [] => [(h, (k, v))]
  | (h', (k', v')) :: rest =>
      if decide (h' = h) then (h', (k', v)) :: rest
      else (h', (k', v')) :: store rest h k v
  end.

(** [k in d] *)
Definition contains (k : json) (d : list (hkey * (json * V))) : res bool :=
  match key_of k with
  | Some h => Ok (match find d h with Some _ => true | None => false end)
  | None => Raise TypeError
  end.

(** [d[k]] *)
Definition getitem (d : list (hkey * (json * V))) (k : json) : res V :=
  match key_of k with
  | Some h =>
      match find d h with
      | Some (_, v) => Ok v
      | None => Raise (KeyError k)
      end
  | None => Raise TypeError
  end.

(** [d[k] = v] *)
Definition setitem (d : list (hkey * (json * V))) (k : json) (v : V)
  : res (list (hkey * (json * V))) :=
  match key_of k with
  | Some h => Ok (store d h k v)
  | None => Raise TypeError
  end.

Definition classes (d : list (hkey * (json * V))) : list hkey := d.*1.
Definition keys (d : list (hkey * (json * V))) : list json := (λ e, e.2.1) <$> d.
Definition values (d : list (hkey * (json * V))) : list V := (λ e, e.2.2) <$> d.
Definition items (d : list (hkey * (json * V))) : list (json * V) := d.*2.

(** What every dictionary satisfies: no class twice, and every key has
    the class it is filed under. *)
Definition wf (d : list (hkey * (json * V))) : Prop :=
  NoDup (classes d) ∧ ∀ h k v, (h, (k, v)) ∈ d → key_of k = Some h.
End Dict.

Abbreviation dict V := (list (hkey * (json * V))) (only parsing).

(** [j[k]] for a string [k]. *)
Definition subscript (j : json) (k : string) : res json :=
  match j with
  | JObj fields =>
      match PyDict.lookup fields k with
      | Some v => Ok v
      | None => Raise (KeyError (JStr k))
      end
  | _ => Raise TypeError
  end.

Fixpoint subscripts (j : json) (path : list string) : res json :=
  match path with
  | [] => Ok j
  | k :: path' => j' ← subscript j k; subscripts j' path'
  end.

(** What [for result in j] visits. *)
Definition iterate (j : json) : res (list json) :=
  match j with
  | JArr items => Ok items
  | JObj fields => Ok (JStr <$> PyDict.keys fields)
  | JStr s => Ok (chars s)
  | _ => Raise TypeError
  end.

(** [Book(id=result['id'], ...)]: the ten subscript chains in the order of
    the keyword arguments; the values are stored as they are. *)
Definition Book_of_result (result : json) : res Book :=
  v_id ← subscripts result ["id"];
  v_title ← subscripts result ["media"; "metadata"; "title"];
  v_author ← subscripts result ["media"; "metadata"; "authorName"];
  v_series ← subscripts result ["media"; "metadata"; "seriesName"];
  v_year ← subscripts result ["media"; "metadata"; "publishedYear"];
  v_asin ← subscripts result ["media"; "metadata"; "asin"];
  v_isbn ← subscripts result ["media"; "metadata"; "isbn"];
  v_added ← subscripts result ["addedAt"];
  v_files ← subscripts result ["media"; "numAudioFiles"];
  v_size ← subscripts result ["media"; "size"];
  Ok {| id := v_id; title := v_title; author := v_author;
        series := v_series; year := v_year; asin := v_asin;
        isbn := v_isbn; added := v_added; files := v_files;
        size := v_size |}.

(** [for result in ...: title_library[result['id']] = Book(...)]: the
    record is built first, then the key is hashed. *)
Fixpoint fetch_loop (todo : list json) (title_library : dict Book)
  : res (dict Book) :=
  match todo with
  | [] => Ok title_library
  | result :: todo' =>
      b ← Book_of_result result;
      title_library ← setitem title_library (id b) b;
      fetch_loop todo' title_library
  end.

(** [get_library], from the response on. *)
Definition get_library (r : response) : res (dict Book) :=
  if status_ok r then
    match json_body r with
    | None => Raise (Exit 1)
    | Some j =>
        results ← subscript j "results";
        todo ← iterate results;
        fetch_loop todo []
    end
  else Raise HTTPError.

(** The reindexing loop of [main]: [ab.asin not in lib_asin] hashes the
    asin, and is reached only when the asin is true. *)
Fixpoint reindex_loop (todo : list Book) (lib_asin : dict Book)
  : res (dict Book) :=
  match todo with
  | [] => Ok lib_asin
  | ab :: todo' =>
      if truthy (asin ab) then
        c ← contains (asin ab) lib_asin;
        if negb c then
          lib_asin ← setitem lib_asin (asin ab) ab;
          reindex_loop todo' lib_asin
        else reindex_loop todo' lib_asin
      else reindex_loop todo' lib_asin
  end.

Definition reindex (lib : dict Book) : res (dict Book) :=
  reindex_loop (values lib) [].

Record partition : Type := mkPartition {
  both : dict Book;
  missing : dict Book
}.

(** The loop of [compare_libs], over the keys still to visit. *)
Fixpoint compare_loop (todo : list json) (lib_one lib_two : dict Book)
    (both_books missing_books : dict Book) : res partition :=
  match todo with
  | [] => Ok {| both := both_books; missing := missing_books |}
  | ab_one :: todo' =>
      c ← contains ab_one lib_two;
      if (c : bool) then
        b ← getitem lib_one ab_one;
        both_books ← setitem both_books ab_one b;
        compare_loop todo' lib_one lib_two both_books missing_books
      else
        b ← getitem lib_one ab_one;
        missing_books ← setitem missing_books ab_one b;
        compare_loop todo' lib_one lib_two both_books missing_books
  end.

Definition compare_libs (lib_one lib_two : dict Book) : res partition :=
  compare_loop (keys lib_one) lib_one lib_two [] [].

(** What a written file holds: the rows handed to [csv.writer], or the
    dictionary handed to [json.dump]. *)
Inductive file_content : Type :=
| CsvFile (rows : list (list json))
| JsonFile (obj : dict (pydict json)).

Definition csv_header : list json :=
  [JStr "Title"; JStr "Author"; JStr "Series"; JStr "Year"; JStr "asin";
   JStr "isbn"].

Definition csv_row (audiobook : Book) : list json :=
  PyDict.values (asdict audiobook).

(** [for k, v in contents.items(): content_json[k] = asdict(v)] *)
Fixpoint json_loop (todo : list (json * Book)) (content_json : dict (pydict json))
  : res (dict (pydict json)) :=
  match todo with
  | [] => Ok content_json
  | (k, v) :: todo' =>
      content_json ← setitem content_json k (asdict v);
      json_loop todo' content_json
  end.

(** [write_output]; the paths are those of the typed embedding. *)
Definition write_output (NOW : string) (fs : gmap string file_content)
    (contents : dict Book) (out_type : string) (flag_j flag_c : bool)
  : res (gmap string file_content) :=
  let fs :=
    if flag_c then
      <[csv_path NOW out_type :=
          CsvFile (csv_header :: (csv_row <$> values contents))]> fs
    else fs in
  if flag_j then
    content_json ← json_loop (items contents) [];
    Ok (<[json_path NOW out_type := JsonFile content_json]> fs)
  else Ok fs.

(** [main], from the two responses on. *)
Definition main (NOW : string) (resp_one resp_two : response)
    (flag_c_csv flag_j_json : bool) (fs : gmap string file_content)
  : res (gmap string file_content * summary) :=
  lib_one ← get_library resp_one;
  lib_two ← get_library resp_two;
  lib_one_asin ← reindex lib_one;
  lib_two_asin ← reindex lib_two;
  first_compare ← compare_libs lib_one_asin lib_two_asin;
  second_compare ← compare_libs lib_two_asin lib_one_asin;
  fs ← write_output NOW fs (both first_compare) "both" flag_j_json flag_c_csv;
  fs ← write_output NOW fs lib_one "one" flag_j_json flag_c_csv;
  fs ← write_output NOW fs lib_two "two_full" flag_j_json flag_c_csv;
  Ok (fs, {| one_entries := length lib_one;
             one_asin_len := length lib_one_asin;
             one_missing_len := length (missing second_compare);
             two_entries := length lib_two;
             two_asin_len := length lib_two_asin;
             two_missing_len := length (missing first_compare);
             len_both := length (both first_compare) |}).
End Raw.

(** A typed record and a typed catalog, seen as the records and catalogs
    of [Raw]: every field and every key is a string. *)
Definition raw_book (b : Book) : Raw.Book :=
  {| Raw.id := JStr (id b); Raw.title := JStr (title b);
     Raw.author := JStr (author b); Raw.series := JStr (series b);
     Raw.year := JStr (year b); Raw.asin := JStr (asin b);
     Raw.isbn := JStr (isbn b); Raw.added := JStr (added b);
     Raw.files := JStr (files b); Raw.size := JStr (size b) |}.

Definition raw_catalog (lib : pydict Book) : Raw.dict Raw.Book :=
  (λ kb, (Raw.KStr kb.1, (JStr kb.1, raw_book kb.2))) <$> lib.

(** An asin that stops the reindexing: it is true and cannot be hashed. *)
Definition unhashable_asin (b : Raw.Book) : Prop :=
  Raw.truthy (Raw.asin b) = true ∧ Raw.key_of (Raw.asin b) = None.

#[global] Instance unhashable_asin_dec b : Decision (unhashable_asin b).
Proof. unfold unhashable_asin. apply _. Defined.

(** The key of an entry is, as a key, a key of the other catalog. *)
Definition raw_shared (other : Raw.dict Raw.Book)
    (e : Raw.hkey * (json * Raw.Book)) : Prop :=
  e.1 ∈ Raw.classes other.

#[global] Instance raw_shared_dec other e : Decision (raw_shared other e) :=
  list_elem_of_dec e.1 (Raw.classes other).

(** The dictionary [write_output] hands to [json.dump] for a catalog: the
    keys of the catalog in its order, each with the fields of its record. *)
Definition raw_content_json (contents : Raw.dict Raw.Book)
  : Raw.dict (pydict json) :=
  (λ e, (e.1, (e.2.1, Raw.asdict e.2.2))) <$> contents.

(** The files after [write_output] has written a catalog. *)
Definition raw_written (NOW : string) (fs : gmap string Raw.file_content)
    (contents : Raw.dict Raw.Book) (out_type : string) (flag_j flag_c : bool)
  : gmap string Raw.file_content :=
  let fs :=
    if flag_c then
      <[csv_path NOW out_type :=
          Raw.CsvFile (Raw.csv_header
                       :: (Raw.csv_row <$> Raw.values contents))]> fs
    else fs in
  if flag_j then
    <[json_path NOW out_type := Raw.JsonFile (raw_content_json contents)]> fs
  else fs.

(** Entries as an Audiobookshelf server sends them: the two times and the
    size are numbers, and a book without a year, an asin or an isbn has
    null there. *)
Module SampleRaw.
Definition entry (i : string) (a : json) : json :=
  JObj [("id", JStr i);
        ("media", JObj [("metadata",
                         JObj [("title", JStr ("T" +:+ i));
                               ("authorName", JStr ("A" +:+ i));
                               ("seriesName", JStr "");
                               ("publishedYear", JNull);
                               ("asin", a);
                               ("isbn", JNull)]);
                        ("numAudioFiles", JNum 3);
                        ("size", JNum 1024)]);
        ("addedAt", JNum 1700000000000)].

(** The record [get_library] builds from [entry i a]. *)
Definition book (i : string) (a : json) : Raw.Book :=
  {| Raw.id := JStr i; Raw.title := JStr ("T" +:+ i);
     Raw.author := JStr ("A" +:+ i); Raw.series := JStr "";
     Raw.year := JNull; Raw.asin := a; Raw.isbn := JNull;
     Raw.added := JNum 1700000000000; Raw.files := JNum 3;
     Raw.size := JNum 1024 |}.

(** Two libraries that share the asin X; the second book of the first
    library has no asin. *)
Definition reply_one : response :=
  Sample.reply [entry "1" (JStr "X"); entry "2" JNull; entry "4" (JStr "Y")].
Definition reply_two : response :=
  Sample.reply [entry "3" (JStr "X"); entry "5" (JStr "Z")].

(** A response in which the id 1 comes twice. *)
Definition reply_twice : response :=
  Sample.reply [entry "1" (JStr "X"); entry "1" (JStr "Y"); entry "2" JNull].


(** A json file left by an earlier run. *)
Definition earlier : gmap string Raw.file_content :=
  {[ json_path Sample.NOW "both" := Raw.JsonFile [] ]}.
End SampleRaw.

(** ** Dictionary lemmas *)

Section DictLemmas.
Context {V : Type}.
Implicit Types (d : pydict V) (k : string) (v : V).

Lemma dict_lookup_None d k : PyDict.lookup d k = None ↔ k ∉ PyDict.keys d.
Proof.
  induction d as [|[k' v'] d IH]; simpl.
  - split; [intros _; apply not_elem_of_nil | done].
  - destruct (String.eqb_spec k' k) as [->|Hne].
    + split; [done | intros H; exfalso; apply H; left].
    + rewrite IH, not_elem_of_cons. split; [by intros ? | by intros [_ ?]].
Qed.

Lemma dict_lookup_elem d k v : PyDict.lookup d k = Some v → (k, v) ∈ d.
Proof.
  induction d as [|[k' v'] d IH]; simpl; [done|].
  destruct (String.eqb_spec k' k) as [->|Hne].
  - intros [= ->]. left.
  - intros H. right. auto.
Qed.

Lemma dict_lookup_wf d k v :
  PyDict.wf d → (k, v) ∈ d → PyDict.lookup d k = Some v.
Proof.
  unfold PyDict.wf, PyDict.keys.
  induction d as [|[k' v'] d IH]; simpl; intros Hnd Hin.
  - by apply elem_of_nil in Hin.
  - apply NoDup_cons in Hnd as [Hk' Hnd].
    apply elem_of_cons in Hin as [[= -> ->]|Hin].
    + by rewrite String.eqb_refl.
    + destruct (String.eqb_spec k' k) as [->|Hne]; [|auto].
      exfalso. apply Hk'. apply list_elem_of_fmap. by exists (k, v).
Qed.

Lemma dict_contains_true d k :
  PyDict.contains k d = true ↔ k ∈ PyDict.keys d.
Proof.
  unfold PyDict.contains.
  destruct (PyDict.lookup d k) eqn:E.
  - split; [intros _ | done].
    apply dict_lookup_elem in E. apply list_elem_of_fmap. by exists (k, v).
  - apply dict_lookup_None in E. split; [done | by intros ?].
Qed.

Lemma dict_contains_false d k :
  PyDict.contains k d = false ↔ k ∉ PyDict.keys d.
Proof.
  rewrite <- dict_contains_true. destruct (PyDict.contains k d); naive_solver.
Qed.

Lemma dict_setitem_fresh d k v :
  k ∉ PyDict.keys d → PyDict.setitem d k v = d ++ [(k, v)].
Proof.
  unfold PyDict.keys.
  induction d as [|[k' v'] d IH]; simpl; [done|].
  rewrite not_elem_of_cons. intros [Hne Hk].
  destruct (String.eqb_spec k' k) as [->|_]; [done|].
  by rewrite IH.
Qed.
End DictLemmas.

Section DictFilter.
Context {V : Type}.
Implicit Types (d : pydict V) (k : string) (v : V).

Lemma dict_wf_filter (P : string * V → Prop) `{!∀ x, Decision (P x)} d :
  PyDict.wf d → PyDict.wf (filter P d).
Proof.
  unfold PyDict.wf, PyDict.keys. intros Hd.
  eapply sublist_NoDup; [exact Hd|].
  apply fmap_sublist, sublist_filter.
Qed.

Lemma elem_of_dict_keys d k : k ∈ PyDict.keys d ↔ ∃ v, (k, v) ∈ d.
Proof.
  unfold PyDict.keys. rewrite list_elem_of_fmap. split.
  - intros [[k' v] [-> Hin]]. by exists v.
  - intros [v Hin]. by exists (k, v).
Qed.

Lemma dict_lookup_Some d k v :
  PyDict.wf d → PyDict.lookup d k = Some v ↔ (k, v) ∈ d.
Proof.
  intros Hd. split; [apply dict_lookup_elem | by apply dict_lookup_wf].
Qed.
End DictFilter.

(** ** The comparator is an order-preserving partition *)

Lemma compare_loop_filter lib_one lib_two items :
  ∀ both_books missing_books,
    (∀ k b, (k, b) ∈ items → PyDict.lookup lib_one k = Some b) →
    NoDup (PyDict.keys items) →
    (∀ k, k ∈ PyDict.keys items →
          (k ∉ PyDict.keys both_books) ∧ (k ∉ PyDict.keys missing_books)) →
    compare_loop (PyDict.keys items) lib_one lib_two both_books missing_books
    = Ok {| both := (both_books ++ filter (shared lib_two) items);
            missing := (missing_books
                        ++ filter (λ kv, ¬ shared lib_two kv) items) |}.
Proof.
  induction items as [|[k b] items IH]; intros bb mb Hget Hnd Hfresh.
  - simpl. by rewrite !filter_nil, !app_nil_r.
  - unfold PyDict.keys in Hnd. simpl in Hnd.
    apply NoDup_cons in Hnd as [Hk Hnd].
    destruct (Hfresh k) as [Hkb Hkm]; [left|].
    assert (Hrest : ∀ k' acc, k' ∈ PyDict.keys items → k' ∉ PyDict.keys acc →
                              k' ∉ PyDict.keys (acc ++ [(k, b)])).
    { intros k' acc Hk' Hacc. unfold PyDict.keys.
      rewrite fmap_app, elem_of_app. intros [?|Hin]; [done|].
      simpl in Hin. apply list_elem_of_singleton in Hin as ->. done. }
    simpl. unfold PyDict.getitem.
    rewrite (Hget k b) by left. simpl.
    destruct (PyDict.contains k lib_two) eqn:Hc.
    + apply dict_contains_true in Hc.
      rewrite dict_setitem_fresh by done.
      rewrite IH; cycle 1.
      * intros k' b' Hin. apply Hget. by right.
      * done.
      * intros k' Hk'. destruct (Hfresh k') as [? ?]; [by right|].
        split; [by apply Hrest | done].
      * rewrite filter_cons_True by done.
        rewrite filter_cons_False by (intros Hn; by apply Hn).
        by rewrite <- app_assoc.
    + apply dict_contains_false in Hc.
      rewrite dict_setitem_fresh by done.
      rewrite IH; cycle 1.
      * intros k' b' Hin. apply Hget. by right.
      * done.
      * intros k' Hk'. destruct (Hfresh k') as [? ?]; [by right|].
        split; [done | by apply Hrest].
      * rewrite filter_cons_False by done.
        rewrite filter_cons_True by done.
        by rewrite <- app_assoc.
Qed.

Lemma compare_libs_filter lib_one lib_two :
  PyDict.wf lib_one →
  compare_libs lib_one lib_two
  = Ok {| both := filter (shared lib_two) lib_one;
          missing := filter (λ kv, ¬ shared lib_two kv) lib_one |}.
Proof.
  intros Hwf. unfold compare_libs.
  rewrite compare_loop_filter; [done | | done |].
  - intros k b. by apply dict_lookup_wf.
  - intros k _. split; apply not_elem_of_nil.
Qed.

Lemma keys_filter_shared (left right : pydict Book) k :
  k ∈ PyDict.keys (filter (shared right) left)
  ↔ k ∈ PyDict.keys left ∧ k ∈ PyDict.keys right.
Proof.
  split.
  - intros [b [Hs Hin]%list_elem_of_filter]%elem_of_dict_keys.
    split; [apply elem_of_dict_keys; by exists b | exact Hs].
  - intros [[b Hin]%elem_of_dict_keys Hr]. apply elem_of_dict_keys. exists b.
    by apply list_elem_of_filter.
Qed.

Lemma keys_filter_unshared (left right : pydict Book) k :
  k ∈ PyDict.keys (filter (λ kv, ¬ shared right kv) left)
  ↔ k ∈ PyDict.keys left ∧ k ∉ PyDict.keys right.
Proof.
  split.
  - intros [b [Hs Hin]%list_elem_of_filter]%elem_of_dict_keys.
    split; [apply elem_of_dict_keys; by exists b | exact Hs].
  - intros [[b Hin]%elem_of_dict_keys Hr]. apply elem_of_dict_keys. exists b.
    by apply list_elem_of_filter.
Qed.

Lemma dict_lookup_filter {V} (P : string * V → Prop) `{!∀ x, Decision (P x)}
    (d : pydict V) k v :
  PyDict.wf d →
  PyDict.lookup (filter P d) k = Some v ↔ P (k, v) ∧ PyDict.lookup d k = Some v.
Proof.
  intros Hd. rewrite !dict_lookup_Some by (done || by apply dict_wf_filter).
  apply list_elem_of_filter.
Qed.

(** C1: [compare_libs left right] returns, and its two outputs partition
    [left] exactly.  [both] is the sub-list of the entries of [left] whose
    key is a key of [right], [missing] the sub-list of the others, both in
    the order of [left]; together they are a rearrangement of [left]
    (nothing lost, duplicated or added); no key is in both outputs; every
    output value is the record [left] holds under that key; and the result
    depends on [right] through its key set only. *)
Theorem compare_libs_partition (left right : pydict Book) :
  PyDict.wf left →
  ∃ p, compare_libs left right = Ok p
    ∧ both p = filter (shared right) left
    ∧ missing p = filter (λ kv, ¬ shared right kv) left
    ∧ both p ++ missing p ≡ₚ left
    ∧ PyDict.wf (both p) ∧ PyDict.wf (missing p)
    ∧ (∀ k, k ∈ PyDict.keys (both p)
            ↔ k ∈ PyDict.keys left ∧ k ∈ PyDict.keys right)
    ∧ (∀ k, k ∈ PyDict.keys (missing p)
            ↔ k ∈ PyDict.keys left ∧ k ∉ PyDict.keys right)
    ∧ (∀ k, ¬ (k ∈ PyDict.keys (both p) ∧ k ∈ PyDict.keys (missing p)))
    ∧ (∀ k b, PyDict.lookup (both p) k = Some b
              ∨ PyDict.lookup (missing p) k = Some b
              ↔ PyDict.lookup left k = Some b)
    ∧ (∀ right' : pydict Book,
          (∀ k, k ∈ PyDict.keys right ↔ k ∈ PyDict.keys right') →
          compare_libs left right' = Ok p).
Proof.
  intros Hwf. eexists. split; [by apply compare_libs_filter|]. simpl.
  split_and!; try done.
  - apply filter_app_complement.
  - by apply dict_wf_filter.
  - by apply dict_wf_filter.
  - apply keys_filter_shared.
  - apply keys_filter_unshared.
  - intros k [[_ Hr]%keys_filter_shared [_ Hn]%keys_filter_unshared]. done.
  - intros k b. rewrite !dict_lookup_filter by done. unfold shared. simpl.
    destruct (decide (k ∈ PyDict.keys right)); tauto.
  - intros right' Heq. rewrite compare_libs_filter by done. f_equal. f_equal.
    + apply list_filter_iff. intros kv. unfold shared. by rewrite Heq.
    + apply list_filter_iff. intros kv. unfold shared. by rewrite Heq.
Qed.

(** ** The asin reindexing *)

Lemma dict_lookup_setitem {V} (d : pydict V) k v k' :
  PyDict.lookup (PyDict.setitem d k v) k'
  = if String.eqb k k' then Some v else PyDict.lookup d k'.
Proof.
  induction d as [|[k0 v0] d IH]; simpl; [done|].
  destruct (String.eqb_spec k0 k) as [->|Hne]; simpl.
  - by destruct (String.eqb_spec k k').
  - rewrite IH. destruct (String.eqb_spec k0 k') as [->|?]; [|done].
    destruct (String.eqb_spec k k'); congruence.
Qed.

Lemma truthy_true s : truthy s = true ↔ s ≠ "".
Proof.
  unfold truthy. destruct (String.eqb_spec s ""); simpl; split; congruence.
Qed.

(** The guard of the loop, read as a proposition. *)
Lemma reindex_guard ab (lib_asin : pydict Book) :
  truthy (asin ab) && negb (PyDict.contains (asin ab) lib_asin) = true
  ↔ asin ab ≠ "" ∧ PyDict.lookup lib_asin (asin ab) = None.
Proof.
  rewrite andb_true_iff, negb_true_iff, truthy_true, dict_contains_false.
  by rewrite dict_lookup_None.
Qed.

Lemma reindex_loop_lookup todo :
  ∀ lib_asin a,
    PyDict.lookup (reindex_loop todo lib_asin) a
    = match PyDict.lookup lib_asin a with
      | Some b => Some b
      | None =>
          if truthy a then List.find (λ b, String.eqb (asin b) a) todo
          else None
      end.
Proof.
  induction todo as [|ab todo IH]; intros lib_asin a; simpl.
  - by destruct (PyDict.lookup lib_asin a), (truthy a).
  - destruct (truthy (asin ab) && negb (PyDict.contains (asin ab) lib_asin))
      eqn:Hg.
    + apply reindex_guard in Hg as [Hne Hnone].
      rewrite IH, dict_lookup_setitem.
      destruct (String.eqb_spec (asin ab) a) as [<-|Hdiff]; [|done].
      rewrite Hnone. by apply truthy_true in Hne as ->.
    + rewrite IH. destruct (PyDict.lookup lib_asin a) eqn:Ha; [done|].
      destruct (truthy a) eqn:Ht; [|done].
      destruct (String.eqb_spec (asin ab) a) as [<-|Hdiff]; [|done].
      assert (Hg' : truthy (asin ab)
                    && negb (PyDict.contains (asin ab) lib_asin) = true)
        by (apply reindex_guard; split; [by apply truthy_true | done]).
      congruence.
Qed.

Lemma reindex_loop_elem todo :
  ∀ lib_asin k b,
    (k, b) ∈ reindex_loop todo lib_asin →
    (k, b) ∈ lib_asin ∨ (k = asin b ∧ k ≠ "" ∧ b ∈ todo).
Proof.
  induction todo as [|ab todo IH]; intros lib_asin k b; simpl; [by left|].
  destruct (truthy (asin ab) && negb (PyDict.contains (asin ab) lib_asin))
    eqn:Hg.
  - apply reindex_guard in Hg as [Hne Hnone%dict_lookup_None].
    rewrite dict_setitem_fresh by done.
    intros [Hin|(? & ? & ?)]%IH.
    + apply elem_of_app in Hin as [Hin|Hin]; [by left|].
      apply list_elem_of_singleton in Hin as [= -> ->].
      right. split_and!; [done | done | left].
    + right. split_and!; [done | done | by right].
  - intros [Hin|(? & ? & ?)]%IH; [by left|].
    right. split_and!; [done | done | by right].
Qed.

Lemma reindex_loop_length todo :
  ∀ lib_asin,
    length (reindex_loop todo lib_asin) ≤ length lib_asin + length todo.
Proof.
  induction todo as [|ab todo IH]; intros lib_asin; simpl; [lia|].
  destruct (truthy (asin ab) && negb (PyDict.contains (asin ab) lib_asin))
    eqn:Hg.
  - apply reindex_guard in Hg as [_ Hnone%dict_lookup_None].
    etrans; [apply IH|]. rewrite dict_setitem_fresh by done.
    rewrite length_app. simpl. lia.
  - etrans; [apply IH|]. lia.
Qed.

Lemma reindex_loop_wf todo :
  ∀ lib_asin, PyDict.wf lib_asin → PyDict.wf (reindex_loop todo lib_asin).
Proof.
  induction todo as [|ab todo IH]; intros lib_asin Hwf; simpl; [done|].
  destruct (truthy (asin ab) && negb (PyDict.contains (asin ab) lib_asin))
    eqn:Hg; [|by apply IH].
  apply reindex_guard in Hg as [_ Hnone%dict_lookup_None].
  apply IH. rewrite dict_setitem_fresh by done.
  unfold PyDict.wf, PyDict.keys in *. rewrite fmap_app. simpl.
  apply NoDup_app. split_and!; [done | | apply NoDup_singleton].
  intros k Hk ->%list_elem_of_singleton. done.
Qed.

Lemma reindex_wf lib : PyDict.wf (reindex lib).
Proof. apply reindex_loop_wf. apply NoDup_nil_2. Qed.

Lemma reindex_elem lib k b :
  (k, b) ∈ reindex lib → k = asin b ∧ k ≠ "" ∧ b ∈ PyDict.values lib.
Proof.
  intros [Hin|H]%reindex_loop_elem; [by apply elem_of_nil in Hin | done].
Qed.

Lemma reindex_lookup lib a :
  a ≠ "" →
  PyDict.lookup (reindex lib) a
  = List.find (λ b, String.eqb (asin b) a) (PyDict.values lib).
Proof.
  intros Ha. unfold reindex. rewrite reindex_loop_lookup. simpl.
  by apply truthy_true in Ha as ->.
Qed.

Lemma find_first_seen (pre post : list Book) b :
  asin b ∉ asin <$> pre →
  List.find (λ b', String.eqb (asin b') (asin b)) (pre ++ b :: post) = Some b.
Proof.
  induction pre as [|x pre IH]; simpl; intros Hpre.
  - by rewrite String.eqb_refl.
  - apply not_elem_of_cons in Hpre as [Hx Hpre].
    destruct (String.eqb_spec (asin x) (asin b)) as [Heq|_]; [|by apply IH].
    by destruct Hx.
Qed.

(** C2: the reindexing never raises (it is a total function) and, for any
    catalog, visited in its order: a record with an empty asin is not in
    the result and nothing is stored under the empty key; under a
    non-empty asin the result holds the first record of the catalog with
    that asin; a later record with the same asin is not in the result
    (unless it is the very same record), so it neither replaces nor is
    merged into the first one; no asin is stored twice and every stored
    record is a record of the catalog. *)
Theorem reindex_first_seen_wins (lib : pydict Book) :
  (∀ b, asin b = "" → b ∉ PyDict.values (reindex lib))
  ∧ PyDict.lookup (reindex lib) "" = None
  ∧ (∀ a, a ≠ "" →
       PyDict.lookup (reindex lib) a
       = List.find (λ b, String.eqb (asin b) a) (PyDict.values lib))
  ∧ (∀ pre b post,
       PyDict.values lib = pre ++ b :: post →
       asin b ≠ "" → asin b ∉ asin <$> pre →
       (asin b, b) ∈ reindex lib
       ∧ ∀ b', b' ∈ post → asin b' = asin b →
               PyDict.lookup (reindex lib) (asin b') = Some b
               ∧ (b' ≠ b → b' ∉ PyDict.values (reindex lib)))
  ∧ PyDict.wf (reindex lib)
  ∧ (∀ k b, (k, b) ∈ reindex lib → b ∈ PyDict.values lib).
Proof.
  assert (Hval : ∀ b, b ∈ PyDict.values (reindex lib) →
                      (asin b, b) ∈ reindex lib).
  { intros b [[k b'] [-> Hin]]%list_elem_of_fmap. simpl.
    by destruct (reindex_elem _ _ _ Hin) as [<- _]. }
  split_and!.
  - intros b Hb Hin%Hval.
    apply reindex_elem in Hin as (_ & Hne & _). congruence.
  - apply dict_lookup_None. intros [b Hin]%elem_of_dict_keys.
    by apply reindex_elem in Hin as (_ & Hne & _).
  - apply reindex_lookup.
  - intros pre b post Hsplit Hne Hpre.
    assert (Hb : PyDict.lookup (reindex lib) (asin b) = Some b).
    { rewrite reindex_lookup by done. rewrite Hsplit.
      by apply find_first_seen. }
    split; [by apply dict_lookup_elem|].
    intros b' _ Heq. rewrite Heq. split; [done|].
    intros Hdiff Hin%Hval.
    apply dict_lookup_wf in Hin; [|apply reindex_wf]. congruence.
  - apply reindex_wf.
  - intros k b Hin. by apply reindex_elem in Hin as (_ & _ & ?).
Qed.

(** C3: the asin-keyed catalog has at most as many entries as the catalog
    it is built from, and every record in it is stored under its own
    asin. *)
Theorem reindex_size_and_keys (lib : pydict Book) :
  length (reindex lib) ≤ length lib
  ∧ ∀ k b, (k, b) ∈ reindex lib → k = asin b.
Proof.
  split.
  - unfold reindex. etrans; [apply reindex_loop_length|].
    unfold PyDict.values. rewrite length_fmap. simpl. lia.
  - intros k b Hin. by apply reindex_elem in Hin as [? _].
Qed.

(** ** The two directions of the comparison *)

(** C4: comparing in the two directions gives the same keys in [both]:
    the same set of keys, each once (the two key lists are rearrangements
    of one another), while the records of each direction are those of its
    own first argument. *)
Theorem compare_libs_both_symmetric (left right : pydict Book) :
  PyDict.wf left → PyDict.wf right →
  ∃ p q, compare_libs left right = Ok p
    ∧ compare_libs right left = Ok q
    ∧ (∀ k, k ∈ PyDict.keys (both p) ↔ k ∈ PyDict.keys (both q))
    ∧ PyDict.keys (both p) ≡ₚ PyDict.keys (both q)
    ∧ (∀ k b, PyDict.lookup (both p) k = Some b →
              PyDict.lookup left k = Some b)
    ∧ (∀ k b, PyDict.lookup (both q) k = Some b →
              PyDict.lookup right k = Some b).
Proof.
  intros Hl Hr. do 2 eexists.
  split; [by apply compare_libs_filter|].
  split; [by apply compare_libs_filter|]. simpl.
  assert (Hset : ∀ k, k ∈ PyDict.keys (filter (shared right) left)
                      ↔ k ∈ PyDict.keys (filter (shared left) right)).
  { intros k. rewrite !keys_filter_shared. tauto. }
  split_and!; [done | | |].
  - apply NoDup_Permutation; [by apply dict_wf_filter | by apply dict_wf_filter | done].
  - intros k b [_ Hb]%dict_lookup_filter; done.
  - intros k b [_ Hb]%dict_lookup_filter; done.
Qed.

(** ** The comparator on the store *)

Lemma compare_loop_total (lib_one lib_two : pydict Book) todo :
  ∀ both_books missing_books,
    (∀ k, k ∈ todo → k ∈ PyDict.keys lib_one) →
    ∃ p, compare_loop todo lib_one lib_two both_books missing_books = Ok p.
Proof.
  induction todo as [|k todo IH]; intros bb mb Hsub; simpl; [by eexists|].
  assert (Hk : k ∈ PyDict.keys lib_one) by (apply Hsub; left).
  unfold PyDict.getitem.
  destruct (PyDict.lookup lib_one k) as [b|] eqn:Hb;
    [|by apply dict_lookup_None in Hb].
  simpl. destruct (PyDict.contains k lib_two);
    apply IH; intros k' Hk'; apply Hsub; by right.
Qed.

Lemma compare_libs_total (lib_one lib_two : pydict Book) :
  ∃ p, compare_libs lib_one lib_two = Ok p.
Proof. by apply compare_loop_total. Qed.

Lemma drop_cons_inv {A} (l : list A) i x rest :
  drop i l = x :: rest → l !! i = Some x ∧ drop (S i) l = rest.
Proof.
  intros Hd.
  assert (Hx : l !! i = Some x).
  { rewrite <- (Nat.add_0_r i), <- lookup_drop, Hd. done. }
  split; [done|]. apply drop_S in Hx. congruence.
Qed.

Section StoreLoop.
Variables lib_one lib_two both_books missing_books : Store.ref.
Variables d1 d2 : pydict Book.
Hypothesis one_both : lib_one ≠ both_books.
Hypothesis one_missing : lib_one ≠ missing_books.
Hypothesis two_both : lib_two ≠ both_books.
Hypothesis two_missing : lib_two ≠ missing_books.
Hypothesis both_missing : both_books ≠ missing_books.

(** The loop on the store computes what [compare_loop] computes, and
    leaves it in the two accumulators; nothing else is written. *)
Lemma for_steps_compare_loop todo :
  ∀ i bb mb (h : Store.store),
    h !! lib_one = Some d1 → h !! lib_two = Some d2 →
    h !! both_books = Some bb → h !! missing_books = Some mb →
    drop i (PyDict.keys d1) = todo →
    Store.for_steps lib_one (length d1) (seq i (length todo))
      (Store.compare_body lib_one lib_two both_books missing_books) h
    = match compare_loop todo d1 d2 bb mb with
      | Ok p => Ok (tt, <[missing_books := missing p]>
                          (<[both_books := both p]> h))
      | Raise e => Raise e
      end.
Proof.
  induction todo as [|k todo IH]; intros i bb mb h H1 H2 Hb Hm Hdrop; simpl.
  - unfold Store.ret. by rewrite (list_insert_id h), list_insert_id.
  - apply drop_cons_inv in Hdrop as [Hk Hdrop].
    unfold Store.bind at 1. unfold Store.deref at 1. rewrite H1.
    rewrite Nat.eqb_refl, Hk.
    unfold Store.bind at 1. unfold Store.compare_body.
    unfold Store.bind at 1. unfold Store.contains.
    unfold Store.bind at 1. unfold Store.deref at 1. rewrite H2.
    unfold Store.ret at 1.
    unfold PyDict.getitem, Store.getitem.
    destruct (PyDict.contains k d2).
    + unfold Store.bind at 1. unfold Store.bind at 1.
      unfold Store.deref at 1. rewrite H1.
      destruct (PyDict.lookup d1 k) as [b|]; [|done]. simpl.
      unfold Store.ret at 1. unfold Store.setitem.
      unfold Store.bind at 1. unfold Store.deref at 1. rewrite Hb.
      rewrite (IH (S i) (PyDict.setitem bb k b) mb); try done.
      * destruct (compare_loop _ _ _ _ _); [|done].
        by rewrite list_insert_insert_eq.
      * by rewrite list_lookup_insert_ne.
      * by rewrite list_lookup_insert_ne.
      * apply list_lookup_insert_eq. by eapply lookup_lt_Some.
      * by rewrite list_lookup_insert_ne.
    + unfold Store.bind at 1. unfold Store.bind at 1.
      unfold Store.deref at 1. rewrite H1.
      destruct (PyDict.lookup d1 k) as [b|]; [|done]. simpl.
      unfold Store.ret at 1. unfold Store.setitem.
      unfold Store.bind at 1. unfold Store.deref at 1. rewrite Hm.
      rewrite (IH (S i) bb (PyDict.setitem mb k b)); try done.
      * destruct (compare_loop _ _ _ _ _); [|done].
        rewrite (list_insert_insert_ne _ both_books missing_books) by done.
        by rewrite list_insert_insert_eq.
      * by rewrite list_lookup_insert_ne.
      * by rewrite list_lookup_insert_ne.
      * by rewrite list_lookup_insert_ne.
      * apply list_lookup_insert_eq. by eapply lookup_lt_Some.
Qed.
End StoreLoop.

Lemma store_compare_libs_run (h : Store.store) lib_one lib_two d1 d2 p :
  h !! lib_one = Some d1 → h !! lib_two = Some d2 →
  compare_libs d1 d2 = Ok p →
  Store.compare_libs lib_one lib_two h
  = Ok ((length h, S (length h)), h ++ [both p; missing p]).
Proof.
  intros H1 H2 Hp.
  pose proof (lookup_lt_Some _ _ _ H1) as Hlt1.
  pose proof (lookup_lt_Some _ _ _ H2) as Hlt2.
  unfold Store.compare_libs.
  unfold Store.bind at 1. unfold Store.new_dict at 1.
  unfold Store.bind at 1. unfold Store.new_dict at 1.
  rewrite length_app. simpl. rewrite Nat.add_1_r.
  set (h2 := (h ++ [[]]) ++ [[]]).
  assert (Hh2 : h2 = h ++ [[]; []]) by (unfold h2; by rewrite <- app_assoc).
  assert (H1' : h2 !! lib_one = Some d1)
    by (rewrite Hh2, lookup_app_l by done; done).
  assert (H2' : h2 !! lib_two = Some d2)
    by (rewrite Hh2, lookup_app_l by done; done).
  assert (Hb : h2 !! length h = Some []).
  { rewrite Hh2, lookup_app_r by lia. by rewrite Nat.sub_diag. }
  assert (Hm : h2 !! S (length h) = Some []).
  { rewrite Hh2, lookup_app_r by lia.
    by replace (S (length h) - length h) with 1 by lia. }
  unfold Store.bind at 1. unfold Store.for_in.
  unfold Store.bind at 1. unfold Store.deref at 1. rewrite H1'.
  assert (Hlen : length d1 = length (PyDict.keys d1))
    by (unfold PyDict.keys; by rewrite length_fmap).
  rewrite Hlen at 2.
  rewrite (for_steps_compare_loop lib_one lib_two (length h) (S (length h))
             d1 d2) with (bb := []) (mb := []); try done; try lia.
  unfold compare_libs in Hp. rewrite Hp. unfold Store.ret. do 2 f_equal.
  rewrite Hh2.
  rewrite (insert_app_r_alt h _ (length h)) by lia.
  rewrite (insert_app_r_alt h _ (S (length h))) by lia.
  rewrite Nat.sub_diag. by replace (S (length h) - length h) with 1 by lia.
Qed.

(** C8: run on a store of dictionary objects, [compare_libs] returns two
    new dictionaries and changes no dictionary that existed before the
    call, its two arguments in particular (also when both arguments are
    the same object); what the new dictionaries hold is the value of the
    function [compare_libs] at what the arguments hold, so a second call
    on the unchanged arguments returns dictionaries with the same entries
    and leaves the results of the first call as they were. *)
Theorem compare_libs_pure (h : Store.store) (lib_one lib_two : Store.ref)
    (d1 d2 : pydict Book) :
  h !! lib_one = Some d1 → h !! lib_two = Some d2 →
  ∃ p both1 missing1 h1 both2 missing2 h2,
    compare_libs d1 d2 = Ok p
    ∧ Store.compare_libs lib_one lib_two h = Ok ((both1, missing1), h1)
    ∧ (∀ a, a < length h → h1 !! a = h !! a)
    ∧ h1 !! lib_one = Some d1 ∧ h1 !! lib_two = Some d2
    ∧ length h ≤ both1 ∧ length h ≤ missing1 ∧ both1 ≠ missing1
    ∧ h1 !! both1 = Some (both p) ∧ h1 !! missing1 = Some (missing p)
    ∧ Store.compare_libs lib_one lib_two h1 = Ok ((both2, missing2), h2)
    ∧ (∀ a, a < length h1 → h2 !! a = h1 !! a)
    ∧ h2 !! lib_one = Some d1 ∧ h2 !! lib_two = Some d2
    ∧ h2 !! both2 = Some (both p) ∧ h2 !! missing2 = Some (missing p).
Proof.
  intros H1 H2.
  destruct (compare_libs_total d1 d2) as [p Hp].
  pose proof (lookup_lt_Some _ _ _ H1) as Hlt1.
  pose proof (lookup_lt_Some _ _ _ H2) as Hlt2.
  set (out := [both p; missing p]).
  assert (Hfresh : ∀ h' : Store.store,
             (h' ++ out) !! length h' = Some (both p)
             ∧ (h' ++ out) !! S (length h') = Some (missing p)).
  { intros h'. rewrite !lookup_app_r by lia. rewrite Nat.sub_diag.
    by replace (S (length h') - length h') with 1 by lia. }
  assert (H1' : (h ++ out) !! lib_one = Some d1)
    by (rewrite lookup_app_l by done; done).
  assert (H2' : (h ++ out) !! lib_two = Some d2)
    by (rewrite lookup_app_l by done; done).
  exists p, (length h), (S (length h)), (h ++ out),
    (length (h ++ out)), (S (length (h ++ out))), ((h ++ out) ++ out).
  split_and!; try done; try lia.
  - by apply (store_compare_libs_run _ _ _ d1 d2).
  - intros a Ha. by rewrite lookup_app_l.
  - apply Hfresh.
  - apply Hfresh.
  - by apply (store_compare_libs_run _ _ _ d1 d2).
  - intros a Ha. by rewrite lookup_app_l.
  - rewrite lookup_app_l; [done|]. rewrite length_app. lia.
  - rewrite lookup_app_l; [done|]. rewrite length_app. lia.
  - apply Hfresh.
  - apply Hfresh.
Qed.

(** ** The record model *)

Lemma tuple_eq_true t1 : ∀ t2, tuple_eq t1 t2 = true ↔ t1 = t2.
Proof.
  induction t1 as [|x t1 IH]; intros [|y t2]; simpl; try (split; done).
  rewrite andb_true_iff, IH, String.eqb_eq. split.
  - by intros [-> ->].
  - by intros [= -> ->].
Qed.

Lemma Book_fields_inj a b : Book_fields a = Book_fields b → a = b.
Proof.
  destruct a, b. unfold Book_fields. simpl.
  by intros [= -> -> -> -> -> -> -> -> -> ->].
Qed.

Lemma dict_setitem_elem {V} (d : pydict V) k v kv :
  kv ∈ PyDict.setitem d k v → kv ∈ d ∨ kv = (k, v).
Proof.
  induction d as [|[k0 v0] d IH]; simpl.
  - intros ->%list_elem_of_singleton. by right.
  - destruct (String.eqb_spec k0 k) as [->|Hne].
    + intros [->|Hin]%elem_of_cons; [by right | left; by right].
    + intros [->|Hin]%elem_of_cons; [left; left|].
      destruct (IH Hin) as [?|?]; [left; by right | by right].
Qed.

Lemma compare_loop_elem (lib_one lib_two : pydict Book) todo :
  ∀ both_books missing_books p,
    compare_loop todo lib_one lib_two both_books missing_books = Ok p →
    ∀ kv, kv ∈ both p ∨ kv ∈ missing p →
          kv ∈ both_books ∨ kv ∈ missing_books ∨ kv ∈ lib_one.
Proof.
  induction todo as [|k todo IH]; intros bb mb p; simpl.
  - intros [= <-] kv. simpl. tauto.
  - unfold PyDict.getitem.
    destruct (PyDict.lookup lib_one k) as [b|] eqn:Hb;
      [|by destruct (PyDict.contains k lib_two)].
    apply dict_lookup_elem in Hb.
    destruct (PyDict.contains k lib_two); simpl; intros Hp kv Hkv;
      destruct (IH _ _ _ Hp kv Hkv) as [Hin|[Hin|Hin]]; auto;
      apply dict_setitem_elem in Hin as [?| ->]; auto.
Qed.

Lemma Book_init_attributes b :
  Instance.class_of (Instance.Book_init b) = "Book"
  ∧ Instance.attributes (Instance.Book_init b) = asdict b.
Proof. done. Qed.

Lemma Book_statements_raise self s :
  Instance.class_of self = "Book" →
  Instance.execute self s = Instance.Raised Instance.FrozenInstanceError.
Proof.
  intros Hcls. destruct s; simpl;
    unfold Instance.Book_setattr, Instance.Book_delattr, Instance.frozen;
    by rewrite Hcls.
Qed.

Lemma Book_attempts_frame prog :
  ∀ self, Instance.class_of self = "Book" →
          Instance.attempts self prog = self.
Proof.
  induction prog as [|s prog IH]; intros self Hcls; simpl; [done|].
  rewrite Book_statements_raise by done. by apply IH.
Qed.

(** The hash of a tuple can be free of collisions, for instance when it
    is the code of the tuple in an enumeration of all tuples. *)
Example collision_free_hash :
  ∀ t1 t2 : list string, Z.pos (encode t1) = Z.pos (encode t2) → t1 = t2.
Proof. intros t1 t2 [= H]. by apply (inj encode). Qed.

(** C9: [Book] is a frozen dataclass with generated equality.  Its
    [__eq__] holds of two records exactly when each of the ten fields of
    one equals that field of the other, which is when they are the same
    record value.  Its [__hash__] is taken of all ten fields: records
    that are equal have the same hash, and when the hash of tuples has no
    collision, records with the same hash are equal, so that no field is
    left out of it.  The instance [__init__] builds has the class [Book]
    and holds the ten fields under their names; on it every assignment to
    an attribute and every deletion of one raises [FrozenInstanceError],
    whether the name is a field or not, so that after any sequence of
    such statements, each caught, the instance is what it was.  And the
    operations of the program hand records on as they are: every record
    in the result of the reindexing or of [compare_libs] is a record of
    the catalog it was given. *)
Theorem Book_frozen_structural (hash : list string → Z) (a b : Book) :
  (Book_eq a b = true
   ↔ id a = id b ∧ title a = title b ∧ author a = author b
     ∧ series a = series b ∧ year a = year b ∧ asin a = asin b
     ∧ isbn a = isbn b ∧ added a = added b ∧ files a = files b
     ∧ size a = size b)
  ∧ (Book_eq a b = true ↔ a = b)
  ∧ (Book_eq a b = true → Book_hash hash a = Book_hash hash b)
  ∧ ((∀ t1 t2, hash t1 = hash t2 → t1 = t2) →
     Book_hash hash a = Book_hash hash b → Book_eq a b = true)
  ∧ Instance.class_of (Instance.Book_init a) = "Book"
  ∧ Instance.attributes (Instance.Book_init a) = asdict a
  ∧ (∀ name value,
       Instance.Book_setattr (Instance.Book_init a) name value
       = Instance.Raised Instance.FrozenInstanceError)
  ∧ (∀ name,
       Instance.Book_delattr (Instance.Book_init a) name
       = Instance.Raised Instance.FrozenInstanceError)
  ∧ (∀ prog,
       Instance.attempts (Instance.Book_init a) prog = Instance.Book_init a)
  ∧ (∀ lib k, (k, a) ∈ reindex lib → a ∈ PyDict.values lib)
  ∧ (∀ left right p k,
       compare_libs left right = Ok p →
       (k, a) ∈ both p ∨ (k, a) ∈ missing p → (k, a) ∈ left).
Proof.
  assert (Heq : Book_eq a b = true ↔ a = b).
  { unfold Book_eq. rewrite tuple_eq_true. split.
    - apply Book_fields_inj.
    - by intros ->. }
  split_and!.
  - rewrite Heq. split.
    + by intros ->.
    + destruct a, b. simpl.
      by intros (-> & -> & -> & -> & -> & -> & -> & -> & -> & ->).
  - exact Heq.
  - intros ->%Heq. done.
  - intros Hinj Hhash. apply Heq, Book_fields_inj, Hinj, Hhash.
  - apply Book_init_attributes.
  - apply Book_init_attributes.
  - intros name value.
    apply (Book_statements_raise _ (Instance.Assign name value)).
    apply Book_init_attributes.
  - intros name.
    apply (Book_statements_raise _ (Instance.Delete name)).
    apply Book_init_attributes.
  - intros prog. apply Book_attempts_frame, Book_init_attributes.
  - intros lib k Hin. by apply reindex_elem in Hin as (_ & _ & ?).
  - intros left right p k Hp Hin.
    destruct (compare_loop_elem _ _ _ _ _ _ Hp _ Hin) as [H|[H|H]];
      [by apply elem_of_nil in H | by apply elem_of_nil in H | done].
Qed.

(** ** Malformed entries *)

Lemma subscripts_absent path :
  ∀ j, absent path j → ∃ k, subscripts j path = Raise (KeyError k).
Proof.
  induction path as [|k path IH]; intros j; [by destruct j|].
  destruct j as [| | | | |fields]; simpl; try done.
  unfold PyDict.getitem.
  destruct (PyDict.lookup fields k) as [j'|]; simpl; [apply IH | by eexists].
Qed.

Lemma subscripts_key_or_ok fields k :
  (∃ v, subscripts (JObj fields) [k] = Ok v)
  ∨ subscripts (JObj fields) [k] = Raise (KeyError k).
Proof.
  simpl. unfold PyDict.getitem.
  destruct (PyDict.lookup fields k); simpl; eauto.
Qed.

(** When the author is absent, reading the title (which comes first)
    either succeeds or fails on a missing key as well. *)
Lemma title_before_author result :
  absent ["media"; "metadata"; "authorName"] result →
  (∃ v, subscripts result ["media"; "metadata"; "title"] = Ok v)
  ∨ (∃ k, subscripts result ["media"; "metadata"; "title"]
          = Raise (KeyError k)).
Proof.
  destruct result as [| | | | |fields]; try done. simpl.
  unfold PyDict.getitem.
  destruct (PyDict.lookup fields "media") as [media|]; simpl; [|by eauto].
  destruct media as [| | | | |mfields]; try done. simpl.
  unfold PyDict.getitem.
  destruct (PyDict.lookup mfields "metadata") as [metadata|]; simpl;
    [|by eauto].
  destruct metadata as [| | | | |dfields]; try done. simpl.
  unfold PyDict.getitem.
  destruct (PyDict.lookup dfields "title"); simpl; eauto.
Qed.

Lemma Book_of_result_absent result path :
  path ∈ required_paths → absent path result →
  ∃ k, Book_of_result result = Raise (KeyError k).
Proof.
  unfold required_paths. rewrite !elem_of_cons, elem_of_nil.
  intros Hpath Habs.
  assert (Hobj : ∃ fields, result = JObj fields).
  { destruct Hpath as [->|[->|[->|[]]]];
      destruct result; try done; by eexists. }
  destruct Hobj as [fields ->].
  destruct (subscripts_key_or_ok fields "id") as [[v Hid]|Hid];
    [|exists "id"; unfold Book_of_result; by rewrite Hid].
  destruct Hpath as [->|[->|[->|[]]]].
  - apply subscripts_absent in Habs as [k Hk]. congruence.
  - apply subscripts_absent in Habs as [k Hk].
    exists k. unfold Book_of_result. by rewrite Hid, Hk.
  - destruct (title_before_author _ Habs) as [[t Ht]|[k Hk]];
      [|exists k; unfold Book_of_result; by rewrite Hid, Hk].
    apply subscripts_absent in Habs as [k Hk].
    exists k. unfold Book_of_result. by rewrite Hid, Ht, Hk.
Qed.

Lemma fetch_loop_fails pre result post e :
  Book_of_result result = Raise e →
  ∀ title_library,
    ∃ e', fetch_loop (pre ++ result :: post) title_library = Raise e'.
Proof.
  intros Hres. induction pre as [|x pre IH]; intros lib; simpl.
  - rewrite Hres. by eexists.
  - destruct (Book_of_result x); simpl; [apply IH | by eexists].
Qed.

Lemma fetch_loop_raises pre result post e :
  Book_of_result result = Raise e →
  (∀ x, x ∈ pre → ∃ b, Book_of_result x = Ok b) →
  ∀ title_library,
    fetch_loop (pre ++ result :: post) title_library = Raise e.
Proof.
  intros Hres. induction pre as [|x pre IH]; intros Hpre lib; simpl.
  - by rewrite Hres.
  - destruct (Hpre x) as [b ->]; [left|]. simpl.
    apply IH. intros y Hy. apply Hpre. by right.
Qed.

(** C7: when an entry of a response lacks [id], [title] or [author], no
    record is built from it: the lookup of the missing key raises
    [KeyError] (the condition the specification calls MalformedRecord).
    [get_library] has no handler for it, so the fetch returns no catalog,
    whatever the place of the entry among the others and however many
    well-formed entries surround it; when the entries before it are
    well-formed the exception that leaves [get_library] is that
    [KeyError] itself; and [main] ends with an exception as well,
    whichever of the two libraries the entry comes from. *)
Theorem get_library_malformed_aborts (r : response) (j : json)
    (pre post : list json) (result : json) (path : list string) :
  status_ok r = true → json_body r = Some j →
  subscript j "results" = Ok (JArr (pre ++ result :: post)) →
  path ∈ required_paths → absent path result →
  (∃ k, Book_of_result result = Raise (KeyError k))
  ∧ (∃ e, get_library r = Raise e)
  ∧ ((∀ x, x ∈ pre → ∃ b, Book_of_result x = Ok b) →
     ∃ k, get_library r = Raise (KeyError k))
  ∧ (∀ NOW other flag_c flag_j fs,
       (∃ e, main NOW r other flag_c flag_j fs = Raise e)
       ∧ (∃ e, main NOW other r flag_c flag_j fs = Raise e)).
Proof.
  intros Hok Hbody Hres Hpath Habs.
  destruct (Book_of_result_absent _ _ Hpath Habs) as [k Hk].
  assert (Hget : ∀ e, fetch_loop (pre ++ result :: post) [] = Raise e →
                      get_library r = Raise e).
  { intros e He. unfold get_library. rewrite Hok, Hbody, Hres. simpl.
    exact He. }
  destruct (fetch_loop_fails pre result post _ Hk []) as [e He].
  split_and!.
  - by exists k.
  - exists e. by apply Hget.
  - intros Hpre. exists k. apply Hget. by apply fetch_loop_raises.
  - intros NOW other flag_c flag_j fs. unfold main.
    rewrite (Hget e He). split; [by eexists|].
    destruct (get_library other); simpl; by eexists.
Qed.

(** ** The writer *)

Lemma string_app_cancel (s a b : string) : s +:+ a = s +:+ b → a = b.
Proof.
  induction s as [|c s IH]; simpl; [done|]. intros [= H]. by apply IH.
Qed.

Lemma csv_json_paths_differ NOW out_type :
  csv_path NOW out_type ≠ json_path NOW out_type.
Proof.
  unfold csv_path, json_path. intros H.
  apply (string_app_cancel (FILEBASE NOW)) in H.
  apply (string_app_cancel out_type) in H. discriminate H.
Qed.

Lemma write_output_csv NOW fs contents out_type flag_j :
  write_output NOW fs contents out_type flag_j true
    !! csv_path NOW out_type
  = Some (CsvFile (csv_header :: (csv_row <$> PyDict.values contents))).
Proof.
  unfold write_output. destruct flag_j.
  - rewrite lookup_insert_ne by (apply not_eq_sym, csv_json_paths_differ).
    apply lookup_insert_eq.
  - apply lookup_insert_eq.
Qed.

Lemma write_output_json NOW fs contents out_type flag_c :
  write_output NOW fs contents out_type true flag_c
    !! json_path NOW out_type
  = Some (JsonFile (json_loop contents [])).
Proof. unfold write_output. apply lookup_insert_eq. Qed.

Lemma write_output_other NOW fs contents out_type flag_j flag_c p :
  (flag_c = true → p ≠ csv_path NOW out_type) →
  (flag_j = true → p ≠ json_path NOW out_type) →
  write_output NOW fs contents out_type flag_j flag_c !! p = fs !! p.
Proof.
  intros Hc Hj. unfold write_output. destruct flag_j, flag_c;
    rewrite ?lookup_insert_ne; auto using not_eq_sym.
Qed.

(** C10: with both flags false [write_output] leaves the file system as
    it is.  Whatever the flags, no path other than the csv path and the
    json path of [out_type] is touched; the csv flag alone decides whether
    the csv file is written (and then with the header and one row per
    record) or left as it was, and the json flag alone decides the same
    for the json file. *)
Theorem write_output_flags (NOW : string) (fs : gmap string file_content)
    (contents : pydict Book) (out_type : string) :
  write_output NOW fs contents out_type false false = fs
  ∧ (∀ flag_j flag_c p,
       p ≠ csv_path NOW out_type → p ≠ json_path NOW out_type →
       write_output NOW fs contents out_type flag_j flag_c !! p = fs !! p)
  ∧ (∀ flag_j,
       write_output NOW fs contents out_type flag_j false
         !! csv_path NOW out_type
       = fs !! csv_path NOW out_type)
  ∧ (∀ flag_j,
       write_output NOW fs contents out_type flag_j true
         !! csv_path NOW out_type
       = Some (CsvFile (csv_header :: (csv_row <$> PyDict.values contents))))
  ∧ (∀ flag_c,
       write_output NOW fs contents out_type false flag_c
         !! json_path NOW out_type
       = fs !! json_path NOW out_type)
  ∧ (∀ flag_c,
       write_output NOW fs contents out_type true flag_c
         !! json_path NOW out_type
       = Some (JsonFile (json_loop contents []))).
Proof.
  split_and!.
  - done.
  - intros flag_j flag_c p Hc Hj. by apply write_output_other.
  - intros flag_j. apply write_output_other; [done|].
    intros _. apply csv_json_paths_differ.
  - intros flag_j. apply write_output_csv.
  - intros flag_c. apply write_output_other; [|done].
    intros _. apply not_eq_sym, csv_json_paths_differ.
  - intros flag_c. apply write_output_json.
Qed.

(** C5: the csv file of a comparison result.  For the result that holds
    the sample record A1 under its asin, [write_output] writes the header
    of six labels, Title to isbn, and under it one row of ten fields that
    begins with the id and ends with added, files and size.  The row is
    neither the six fields the header names nor those six followed by
    three more, and its first field, the id, stands under the label
    Title. *)
Theorem write_output_row_breaks_header :
  write_output Sample.NOW ∅ [("X", Sample.A1)] "both" false true
    !! csv_path Sample.NOW "both"
  = Some (CsvFile [["Title"; "Author"; "Series"; "Year"; "asin"; "isbn"];
                   ["1"; "T1"; "A1"; ""; "2020"; "X"; "";
                    "1700000000000"; "3"; "1024"]])
  ∧ csv_row Sample.A1 ≠ described_row false Sample.A1
  ∧ csv_row Sample.A1 ≠ described_row true Sample.A1
  ∧ length csv_header = 6
  ∧ length (csv_row Sample.A1) = 10.
Proof.
  rewrite write_output_csv. split_and!; try done; discriminate.
Qed.

(** ** The files of a run *)

Lemma main_other_paths NOW resp_one resp_two flag_c flag_j fs fs' s p :
  main NOW resp_one resp_two flag_c flag_j fs = Ok (fs', s) →
  p ∉ written_paths NOW → fs' !! p = fs !! p.
Proof.
  unfold main, written_paths.
  destruct (get_library resp_one) as [lib_one|]; [|done].
  destruct (get_library resp_two) as [lib_two|]; [|done].
  cbv [mbind res_bind].
  destruct (compare_libs (reindex lib_one) (reindex lib_two)); [|done].
  destruct (compare_libs (reindex lib_two) (reindex lib_one)); [|done].
  intros [= <- _].
  rewrite !not_elem_of_cons. intros (? & ? & ? & ? & ? & ? & _).
  by rewrite !write_output_other.
Qed.

Lemma path_differ NOW (a b : string) :
  a ≠ b → FILEBASE NOW +:+ a ≠ FILEBASE NOW +:+ b.
Proof. intros Hne H. by apply string_app_cancel in H. Qed.

Lemma three_writes NOW fs (c1 c2 c3 : pydict Book) :
  let fs' :=
    write_output NOW
      (write_output NOW (write_output NOW fs c1 "both" true true)
         c2 "one" true true)
      c3 "two_full" true true in
  fs' !! csv_path NOW "both"
  = Some (CsvFile (csv_header :: (csv_row <$> PyDict.values c1)))
  ∧ fs' !! json_path NOW "both" = Some (JsonFile (json_loop c1 []))
  ∧ fs' !! csv_path NOW "one"
    = Some (CsvFile (csv_header :: (csv_row <$> PyDict.values c2)))
  ∧ fs' !! json_path NOW "one" = Some (JsonFile (json_loop c2 []))
  ∧ fs' !! csv_path NOW "two_full"
    = Some (CsvFile (csv_header :: (csv_row <$> PyDict.values c3)))
  ∧ fs' !! json_path NOW "two_full" = Some (JsonFile (json_loop c3 [])).
Proof.
  intros fs'. unfold fs'. split_and!.
  - rewrite !write_output_other by (intros _; unfold csv_path, json_path; apply path_differ; by cbn).
    apply write_output_csv.
  - rewrite !write_output_other by (intros _; unfold csv_path, json_path; apply path_differ; by cbn).
    apply write_output_json.
  - rewrite write_output_other by (intros _; unfold csv_path, json_path; apply path_differ; by cbn).
    apply write_output_csv.
  - rewrite write_output_other by (intros _; unfold csv_path, json_path; apply path_differ; by cbn).
    apply write_output_json.
  - apply write_output_csv.
  - apply write_output_json.
Qed.

Lemma sample_libraries :
  get_library Sample.reply_one = Ok [("1", Sample.A1); ("4", Sample.A4)]
  ∧ get_library Sample.reply_two = Ok [("3", Sample.A3); ("5", Sample.A5)].
Proof. split; reflexivity. Qed.

Lemma sample_comparisons :
  compare_libs (reindex [("1", Sample.A1); ("4", Sample.A4)])
               (reindex [("3", Sample.A3); ("5", Sample.A5)])
  = Ok {| both := [("X", Sample.A1)]; missing := [("Y", Sample.A4)] |}
  ∧ compare_libs (reindex [("3", Sample.A3); ("5", Sample.A5)])
                 (reindex [("1", Sample.A1); ("4", Sample.A4)])
    = Ok {| both := [("X", Sample.A3)]; missing := [("Z", Sample.A5)] |}.
Proof. split; reflexivity. Qed.

(** C6, evaluated: the two sample libraries share the asin X, Y is only
    in the first and Z only in the second, and both output flags are set.
    The run succeeds and counts one asin missing in each direction, yet
    the files it leaves are exactly the csv and json files of three
    datasets: the shared records, the first catalog and the second
    catalog.  Neither set of missing records is written anywhere. *)
Theorem main_writes_three_datasets :
  ∃ fs s,
    main Sample.NOW Sample.reply_one Sample.reply_two true true ∅
    = Ok (fs, s)
    ∧ two_missing_len s = 1 ∧ one_missing_len s = 1 ∧ len_both s = 1
    ∧ (∀ p, is_Some (fs !! p) ↔ p ∈ written_paths Sample.NOW)
    ∧ fs !! csv_path Sample.NOW "both"
      = Some (CsvFile [csv_header; csv_row Sample.A1])
    ∧ fs !! csv_path Sample.NOW "one"
      = Some (CsvFile [csv_header; csv_row Sample.A1; csv_row Sample.A4])
    ∧ fs !! csv_path Sample.NOW "two_full"
      = Some (CsvFile [csv_header; csv_row Sample.A3; csv_row Sample.A5]).
Proof.
  destruct sample_libraries as [Hone Htwo].
  destruct sample_comparisons as [Hfirst Hsecond].
  assert (Hmain : ∃ fs s,
             main Sample.NOW Sample.reply_one Sample.reply_two true true ∅
             = Ok (fs, s)
             ∧ fs = write_output Sample.NOW
                      (write_output Sample.NOW
                         (write_output Sample.NOW ∅ [("X", Sample.A1)]
                            "both" true true)
                         [("1", Sample.A1); ("4", Sample.A4)] "one" true true)
                      [("3", Sample.A3); ("5", Sample.A5)] "two_full"
                      true true
             ∧ two_missing_len s = 1 ∧ one_missing_len s = 1
             ∧ len_both s = 1).
  { do 2 eexists. unfold main. rewrite Hone, Htwo. cbv [mbind res_bind].
    rewrite Hfirst, Hsecond. split; [reflexivity|]. by cbn. }
  destruct Hmain as (fs & s & Hrun & Hfs & Htwo_missing & Hone_missing & Hboth).
  exists fs, s.
  pose proof (three_writes Sample.NOW ∅ [("X", Sample.A1)]
                [("1", Sample.A1); ("4", Sample.A4)]
                [("3", Sample.A3); ("5", Sample.A5)]) as Hfiles.
  cbv zeta in Hfiles. rewrite <- Hfs in Hfiles.
  destruct Hfiles as (Hcb & Hjb & Hco & Hjo & Hct & Hjt).
  split_and!; try done.
  intros p. split.
  - intros Hsome. destruct (decide (p ∈ written_paths Sample.NOW)); [done|].
    rewrite (main_other_paths _ _ _ _ _ _ _ _ p Hrun) in Hsome by done.
    rewrite lookup_empty in Hsome. by destruct Hsome.
  - unfold written_paths. rewrite !elem_of_cons, elem_of_nil.
    intros [->|[->|[->|[->|[->|[->|[]]]]]]]; by eexists.
Qed.

(** ** The examples of the specification, and instances of the theorems *)

Example reindex_catalog : reindex Sample.catalog = [("X", Sample.A1)].
Proof. reflexivity. Qed.

Example compare_left_right :
  compare_libs Sample.left Sample.right
  = Ok {| both := [("X", Sample.A1)]; missing := [("Y", Sample.A4)] |}.
Proof. reflexivity. Qed.

Example compare_right_left :
  compare_libs Sample.right Sample.left
  = Ok {| both := [("X", Sample.A3)]; missing := [] |}.
Proof. reflexivity. Qed.

Example compare_empty :
  compare_libs [] [] = Ok {| both := []; missing := [] |}
  ∧ compare_libs [] Sample.right = Ok {| both := []; missing := [] |}
  ∧ compare_libs Sample.left []
    = Ok {| both := []; missing := Sample.left |}.
Proof. split_and!; reflexivity. Qed.

(** Keys are compared as they are: [x] is not [X]. *)
Example compare_case_sensitive :
  compare_libs [("x", Sample.A1)] Sample.right
  = Ok {| both := []; missing := [("x", Sample.A1)] |}.
Proof. reflexivity. Qed.

Example get_library_untitled :
  get_library Sample.reply_untitled = Raise (KeyError "title").
Proof. reflexivity. Qed.

Lemma sample_left_wf : PyDict.wf Sample.left.
Proof.
  unfold PyDict.wf. simpl. apply NoDup_cons. split.
  - intros Hin%list_elem_of_singleton. discriminate Hin.
  - apply NoDup_singleton.
Defined.

Lemma sample_right_wf : PyDict.wf Sample.right.
Proof. unfold PyDict.wf. simpl. apply NoDup_singleton. Defined.

Lemma compare_libs_partition_witness :
  PyDict.wf Sample.left
  ∧ ∃ p, compare_libs Sample.left Sample.right = Ok p
      ∧ both p = filter (shared Sample.right) Sample.left
      ∧ missing p = filter (λ kv, ¬ shared Sample.right kv) Sample.left
      ∧ both p ++ missing p ≡ₚ Sample.left.
Proof.
  split; [exact sample_left_wf|].
  destruct (compare_libs_partition Sample.left Sample.right sample_left_wf)
    as (p & Hp & Hb & Hm & Hperm & _).
  exists p. split_and!; assumption.
Defined.

Lemma compare_libs_both_symmetric_witness :
  PyDict.wf Sample.left ∧ PyDict.wf Sample.right
  ∧ ∃ p q, compare_libs Sample.left Sample.right = Ok p
      ∧ compare_libs Sample.right Sample.left = Ok q
      ∧ PyDict.keys (both p) ≡ₚ PyDict.keys (both q).
Proof.
  split; [exact sample_left_wf|]. split; [exact sample_right_wf|].
  destruct (compare_libs_both_symmetric Sample.left Sample.right
              sample_left_wf sample_right_wf)
    as (p & q & Hp & Hq & _ & Hperm & _).
  exists p, q. split_and!; assumption.
Defined.

Lemma get_library_malformed_aborts_witness :
  absent ["media"; "metadata"; "title"] Sample.untitled
  ∧ ∃ k, get_library Sample.reply_untitled = Raise (KeyError k).
Proof.
  assert (Habs : absent ["media"; "metadata"; "title"] Sample.untitled)
    by exact I.
  split; [exact Habs|].
  destruct (get_library_malformed_aborts Sample.reply_untitled
              (JObj [("results",
                      JArr [Sample.entry Sample.A1; Sample.untitled;
                            Sample.entry Sample.A4])])
              [Sample.entry Sample.A1] [Sample.entry Sample.A4]
              Sample.untitled ["media"; "metadata"; "title"])
    as (_ & _ & Hkey & _).
  - reflexivity.
  - reflexivity.
  - reflexivity.
  - unfold required_paths. right. left.
  - exact Habs.
  - apply Hkey. intros x Hx. apply list_elem_of_singleton in Hx as ->.
    eexists. reflexivity.
Defined.

Lemma compare_libs_pure_witness :
  ∃ p both1 missing1 h1,
    compare_libs Sample.left Sample.right = Ok p
    ∧ Store.compare_libs 0 1 [Sample.left; Sample.right]
      = Ok ((both1, missing1), h1)
    ∧ h1 !! 0 = Some Sample.left ∧ h1 !! 1 = Some Sample.right
    ∧ h1 !! both1 = Some (both p) ∧ h1 !! missing1 = Some (missing p).
Proof.
  destruct (compare_libs_pure [Sample.left; Sample.right] 0 1
              Sample.left Sample.right eq_refl eq_refl)
    as (p & b1 & m1 & h1 & _ & _ & _ & Hp & Hrun & _ & H0 & H1 & _ & _ & _
        & Hb & Hm & _).
  exists p, b1, m1, h1. split_and!; assumption.
Defined.

(** ** The configuration check *)

Lemma is_str_true v : is_str v = true ↔ ∃ s, v = TStr s.
Proof.
  destruct v; simpl; split; try done; try (by intros [? [=]]).
  intros _. by eexists.
Qed.

Lemma is_one_true v : is_one v = true ↔ v = TStr "1".
Proof.
  destruct v; simpl; split; try done.
  - by intros ->%String.eqb_eq.
  - by intros [= ->].
Qed.

Lemma has_key_true pattern t key :
  has_key pattern t key = true
  ↔ ∃ v, PyDict.lookup t key = Some v ∧ pattern v = true.
Proof.
  unfold has_key. destruct (PyDict.lookup t key) as [v|]; split.
  - intros Hv. by exists v.
  - by intros (v' & [= <-] & Hv).
  - done.
  - by intros (v' & [=] & _).
Qed.

Lemma match_schema_true v :
  match_schema v = true
  ↔ ∃ t, v = TTable t ∧ PyDict.lookup t "version" = Some (TStr "1").
Proof.
  destruct v as [| | | | | |t]; simpl;
    try (split; [done | by intros (? & [=] & _)]).
  rewrite has_key_true. split.
  - intros (v & Hv & ->%is_one_true). by exists t.
  - intros (t' & [= <-] & Hv). exists (TStr "1"). by split.
Qed.

Lemma match_library_true v :
  match_library v = true
  ↔ ∃ t url token library,
      v = TTable t
      ∧ PyDict.lookup t "url" = Some (TStr url)
      ∧ PyDict.lookup t "token" = Some (TStr token)
      ∧ PyDict.lookup t "library" = Some (TStr library).
Proof.
  destruct v as [| | | | | |t]; simpl;
    try (split; [done | by intros (? & ? & ? & ? & [=] & _)]).
  rewrite !andb_true_iff, !has_key_true. split.
  - intros [[(u & Hu & [su ->]%is_str_true) (k & Hk & [sk ->]%is_str_true)]
             (l & Hl & [sl ->]%is_str_true)].
    by exists t, su, sk, sl.
  - intros (t' & su & sk & sl & [= <-] & Hu & Hk & Hl).
    split_and!; eexists; (split; [eassumption | done]).
Qed.

Lemma match_config_true config :
  match_config config = true ↔ schema_holds config.
Proof.
  unfold match_config, schema_holds.
  rewrite !andb_true_iff, !has_key_true. split.
  - intros [[(s & Hs & (t & -> & Hv)%match_schema_true)
              (a & Ha & Hla%match_library_true)]
             (b & Hb & Hlb%match_library_true)].
    split; [by exists t|].
    intros name [->| ->].
    + destruct Hla as (ta & u & k & l & -> & ?). by exists ta, u, k, l.
    + destruct Hlb as (tb & u & k & l & -> & ?). by exists tb, u, k, l.
  - intros [(t & Hs & Hv) Hlibs].
    split_and!.
    + exists (TTable t). split; [done|]. apply match_schema_true. by exists t.
    + destruct (Hlibs "abs_lib_one") as (ta & u & k & l & Ha & ?); [by left|].
      exists (TTable ta). split; [done|].
      apply match_library_true. by exists ta, u, k, l.
    + destruct (Hlibs "abs_lib_two") as (tb & u & k & l & Hb & ?); [by right|].
      exists (TTable tb). split; [done|].
      apply match_library_true. by exists tb, u, k, l.
Qed.

Lemma print_values_done t :
  print_values t = Done tt ↔ ∀ k2 v2, (k2, v2) ∈ t → ∃ s, v2 = TStr s.
Proof.
  induction t as [|[k v] t IH]; simpl.
  - split; [intros _ ? ? Hin; by apply elem_of_nil in Hin | done].
  - destruct (is_str v) eqn:Hv.
    + rewrite IH. apply is_str_true in Hv. split.
      * intros Ht k2 v2 [[= -> ->]|Hin]%elem_of_cons; [done | by eapply Ht].
      * intros Ht k2 v2 Hin. eapply Ht. by right.
    + split; [done|]. intros Ht.
      destruct (Ht k v) as [s ->]; [left | done].
Qed.

Lemma print_config_done config :
  print_config config = Done tt ↔ typed_config config.
Proof.
  unfold typed_config. induction config as [|[k v] config IH]; simpl.
  - split; [intros _ ? ? Hin; by apply elem_of_nil in Hin | done].
  - destruct v as [| | | | | |t];
      try (split; [done|]; intros Ht;
           by destruct (Ht k _ ltac:(left)) as (? & [=] & _)).
    destruct (print_values t) as [[]|e] eqn:Hp.
    + rewrite IH. pose proof (proj1 (print_values_done t) Hp) as Hstr. split.
      * intros Hc k' v' [[= -> ->]|Hin]%elem_of_cons;
          [by exists t | by eapply Hc].
      * intros Hc k' v' Hin. eapply Hc. by right.
    + split; [done|]. intros Ht.
      destruct (Ht k _ ltac:(left)) as (t' & [= <-] & Hstr).
      apply (proj2 (print_values_done t)) in Hstr. congruence.
Qed.

Lemma dict_lookup_app_l {V} (d d' : pydict V) k v :
  PyDict.lookup d k = Some v → PyDict.lookup (d ++ d') k = Some v.
Proof.
  induction d as [|[k0 v0] d IH]; simpl; [done|].
  by destruct (String.eqb k0 k).
Qed.

Lemma library_settings_schema config name :
  schema_holds config → name = "abs_lib_one" ∨ name = "abs_lib_two" →
  ∃ url token library,
    library_settings config name = Ok (TStr url, TStr token, TStr library).
Proof.
  intros [_ Hlibs] Hname.
  destruct (Hlibs name Hname) as (t & url & token & library & Ht & Hu & Hk & Hl).
  exists url, token, library. unfold library_settings, PyDict.getitem.
  rewrite Ht. simpl. unfold PyDict.getitem. by rewrite Hu, Hk, Hl.
Qed.

(** X1: [load_config] returns a configuration exactly when the document
    matches the schema (version the string 1, both libraries with url,
    token and library as strings) and consists of tables of strings only,
    and what it returns is the document itself.  A document that matches
    the schema but holds a value of another type somewhere does not
    come back. *)
Theorem load_config_accepts_iff (config config' : pydict toml) :
  load_config config = Done config'
  ↔ config' = config ∧ schema_holds config ∧ typed_config config.
Proof.
  unfold load_config. rewrite <- match_config_true, <- print_config_done.
  destruct (match_config config); [|split; [done | by intros (_ & [=] & _)]].
  destruct (print_config config) as [[]|e]; split.
  - by intros [= <-].
  - by intros (-> & _ & _).
  - done.
  - by intros (_ & _ & [=]).
Qed.

(** X3: once [load_config] has returned a configuration, the six reads
    [main] makes on it, the url, token and library of each of the two
    libraries, all succeed and give strings: none can raise [KeyError] or
    [TypeError]. *)
Theorem load_config_settings_readable (config config' : pydict toml)
    (name : string) :
  load_config config = Done config' →
  name = "abs_lib_one" ∨ name = "abs_lib_two" →
  ∃ url token library,
    library_settings config' name = Ok (TStr url, TStr token, TStr library).
Proof.
  unfold load_config. intros Hload Hname.
  destruct (match_config config) eqn:Hm; [|done].
  destruct (print_config config) as [[]|e]; [|done].
  injection Hload as <-.
  apply library_settings_schema; [by apply match_config_true | done].
Qed.

(** X4: sections the schema does not name are tolerated as long as they
    are tables of strings: adding one under a new key to a configuration
    that loads gives a configuration that loads. *)
Theorem load_config_extra_section (config : pydict toml) (k : string)
    (t : pydict toml) :
  load_config config = Done config →
  k ∉ PyDict.keys config →
  (∀ k2 v2, (k2, v2) ∈ t → ∃ s, v2 = TStr s) →
  load_config (config ++ [(k, TTable t)]) = Done (config ++ [(k, TTable t)]).
Proof.
  unfold load_config. intros Hload Hk Ht.
  destruct (match_config config) eqn:Hm; [|done].
  destruct (print_config config) as [[]|e] eqn:Hp; [|done].
  apply match_config_true in Hm. apply print_config_done in Hp.
  assert (Hm' : match_config (config ++ [(k, TTable t)]) = true).
  { apply match_config_true. destruct Hm as [(s & Hs & Hv) Hlibs]. split.
    - exists s. split; [by apply dict_lookup_app_l | done].
    - intros name Hname.
      destruct (Hlibs name Hname) as (tl & u & tk & l & Hl & ?).
      exists tl, u, tk, l. split; [by apply dict_lookup_app_l | done]. }
  assert (Hp' : print_config (config ++ [(k, TTable t)]) = Done tt).
  { apply print_config_done. intros k' v' [Hin|Hin]%elem_of_app.
    - by eapply Hp.
    - apply list_elem_of_singleton in Hin as [= -> ->]. by exists t. }
  by rewrite Hm', Hp'.
Qed.

Example sample_config_loads :
  load_config SampleConfig.config = Done SampleConfig.config.
Proof. reflexivity. Qed.

Lemma load_config_settings_readable_witness :
  ∃ url token library,
    library_settings SampleConfig.config "abs_lib_two"
    = Ok (TStr url, TStr token, TStr library).
Proof.
  exact (load_config_settings_readable SampleConfig.config
           SampleConfig.config "abs_lib_two" eq_refl (or_intror eq_refl)).
Defined.

Lemma load_config_extra_section_witness :
  load_config (SampleConfig.config ++ [("notes", TTable [("owner", TStr "me")])])
  = Done (SampleConfig.config ++ [("notes", TTable [("owner", TStr "me")])]).
Proof.
  apply (load_config_extra_section SampleConfig.config "notes"
           [("owner", TStr "me")]).
  - reflexivity.
  - simpl. rewrite !not_elem_of_cons. split_and!; try discriminate.
    apply not_elem_of_nil.
  - intros k2 v2 Hin. apply list_elem_of_singleton in Hin as [= -> ->].
    by eexists.
Defined.

(** ** What the fetch returns *)

Lemma subscripts_raises path :
  ∀ j e, subscripts j path = Raise e → entry_exn e.
Proof.
  induction path as [|k path IH]; intros j e; simpl; [done|].
  destruct j as [| | | | |fields]; simpl;
    try (intros [= <-]; right; by left).
  unfold PyDict.getitem.
  destruct (PyDict.lookup fields k) as [j'|]; simpl.
  - apply IH.
  - intros [= <-]. left. by eexists.
Qed.

Lemma as_str_raises j e : as_str j = Raise e → entry_exn e.
Proof. destruct j; simpl; intros [= <-]; right; by right. Qed.

Lemma Book_of_result_raises result e :
  Book_of_result result = Raise e → entry_exn e.
Proof.
  unfold Book_of_result.
  repeat lazymatch goal with
  | |- mbind _ (subscripts ?j ?p) = _ → _ =>
      let H := fresh in
      destruct (subscripts j p) eqn:H; cbn [mbind res_bind];
      [|intros [= <-]; by eapply subscripts_raises]
  | |- mbind _ (as_str ?j) = _ → _ =>
      let H := fresh in
      destruct (as_str j) eqn:H; cbn [mbind res_bind];
      [|intros [= <-]; by eapply as_str_raises]
  end.
  done.
Qed.

Lemma fetch_loop_raises_entry todo :
  ∀ title_library e, fetch_loop todo title_library = Raise e → entry_exn e.
Proof.
  induction todo as [|result todo IH]; intros acc e; simpl; [done|].
  destruct (Book_of_result result) as [b|e0] eqn:Hb; cbn [mbind res_bind].
  - apply IH.
  - intros [= <-]. by eapply Book_of_result_raises.
Qed.

Lemma get_library_body_raises (j : json) e :
  (results ← subscript j "results"; todo ← iterate results; fetch_loop todo [])
  = Raise e → entry_exn e.
Proof.
  destruct (subscript j "results") as [results|e0] eqn:Hr;
    cbn [mbind res_bind].
  - destruct (iterate results) as [todo|e1] eqn:Hi; cbn [mbind res_bind].
    + apply fetch_loop_raises_entry.
    + intros [= <-]. destruct results; simpl in Hi; try done;
        injection Hi as <-; right; by left.
  - intros [= <-]. apply (subscripts_raises ["results"] j). simpl.
    by rewrite Hr.
Qed.

(** X5: [get_library] ends the program with [typer.Exit] exactly when the
    status is a success and the body is not JSON, and then with code 1; a
    key that is missing, a value of the wrong shape or any other trouble
    with a body that is JSON never turns into an exit.  It raises the
    error of [raise_for_status] exactly when the status is a failure,
    whatever the body. *)
Theorem get_library_exit_iff (r : response) :
  (∀ code, get_library r = Raise (Exit code)
           ↔ status_ok r = true ∧ json_body r = None ∧ code = 1%Z)
  ∧ (get_library r = Raise HTTPError ↔ status_ok r = false).
Proof.
  unfold get_library. destruct (status_ok r); [|split].
  - destruct (json_body r) as [j|]; split.
    + intros code. split; [|by intros (_ & [=] & _)].
      intros [[k [=]]|[[=]|[=]]]%get_library_body_raises.
    + split; [|done].
      intros [[k [=]]|[[=]|[=]]]%get_library_body_raises.
    + intros code. split; [by intros [= <-] | by intros (_ & _ & ->)].
    + done.
  - intros code. split; [done | by intros ([=] & _)].
  - done.
Qed.

Lemma dict_setitem_keys {V} (d : pydict V) k v :
  PyDict.keys (PyDict.setitem d k v)
  = if PyDict.contains k d then PyDict.keys d else PyDict.keys d ++ [k].
Proof.
  unfold PyDict.contains, PyDict.keys.
  induction d as [|[k0 v0] d IH]; [done|].
  cbn [PyDict.setitem PyDict.lookup].
  destruct (String.eqb_spec k0 k) as [->|Hne]; [done|].
  rewrite fmap_cons, IH. by destruct (PyDict.lookup d k).
Qed.

Lemma dict_setitem_wf {V} (d : pydict V) k v :
  PyDict.wf d → PyDict.wf (PyDict.setitem d k v).
Proof.
  unfold PyDict.wf. rewrite dict_setitem_keys.
  destruct (PyDict.contains k d) eqn:Hc; [done|].
  apply dict_contains_false in Hc. intros Hd.
  apply NoDup_app. split_and!; [done | | apply NoDup_singleton].
  intros k' Hk' ->%list_elem_of_singleton. done.
Qed.

Lemma Book_of_entry b : Book_of_result (Sample.entry b) = Ok b.
Proof. by destruct b. Qed.

Lemma fetch_loop_entries items :
  ∀ title_library,
    (∀ k b, (k, b) ∈ items → k = id b) →
    NoDup (PyDict.keys items) →
    (∀ k, k ∈ PyDict.keys items → k ∉ PyDict.keys title_library) →
    fetch_loop (Sample.entry <$> PyDict.values items) title_library
    = Ok (title_library ++ items).
Proof.
  induction items as [|[k b] items IH]; intros acc Hid Hnd Hfresh.
  - simpl. by rewrite app_nil_r.
  - unfold PyDict.values, PyDict.keys in *.
    rewrite !fmap_cons in *. cbn [fst snd fetch_loop] in *.
    rewrite Book_of_entry. cbn [mbind res_bind].
    apply NoDup_cons in Hnd as [Hk Hnd].
    rewrite <- (Hid k b) by left.
    rewrite dict_setitem_fresh by (apply Hfresh; left).
    rewrite IH.
    + by rewrite <- app_assoc.
    + intros k' b' Hin. apply Hid. by right.
    + done.
    + intros k' Hk'. unfold PyDict.keys. rewrite fmap_app, elem_of_app.
      intros [Hacc|Hkk].
      * by apply (Hfresh k'); [right|].
      * simpl in Hkk. apply list_elem_of_singleton in Hkk as ->. done.
Qed.

(** X8: fetching is the inverse of listing: a response that lists the
    records of a catalog, each in the layout [get_library] reads (id and
    addedAt at the top, title, authorName, seriesName, publishedYear,
    asin and isbn under media.metadata, numAudioFiles and size under
    media), is fetched back as that very catalog, in the same order,
    provided the catalog is keyed by id and has no key twice. *)
Theorem get_library_round_trip (lib : pydict Book) :
  PyDict.wf lib →
  (∀ k b, (k, b) ∈ lib → k = id b) →
  get_library (Sample.reply (Sample.entry <$> PyDict.values lib)) = Ok lib.
Proof.
  intros Hwf Hid. unfold get_library, Sample.reply. simpl.
  rewrite fetch_loop_entries; [done | done | done |].
  intros k _. apply not_elem_of_nil.
Qed.

Lemma sample_ids_wf : PyDict.wf [("1", Sample.A1); ("4", Sample.A4)].
Proof.
  unfold PyDict.wf. simpl. apply NoDup_cons. split.
  - intros Hin%list_elem_of_singleton. discriminate Hin.
  - apply NoDup_singleton.
Defined.

Lemma get_library_round_trip_witness :
  get_library (Sample.reply
                 (Sample.entry <$> PyDict.values [("1", Sample.A1);
                                                  ("4", Sample.A4)]))
  = Ok [("1", Sample.A1); ("4", Sample.A4)].
Proof.
  apply get_library_round_trip.
  - exact sample_ids_wf.
  - intros k b. rewrite !elem_of_cons, elem_of_nil.
    by intros [[= -> ->]|[[= -> ->]|[]]].
Defined.

(** X13: writing a dataset again replaces what was written for it: after
    two calls for the same [out_type] with the same flags the file system
    is as after the second call alone, so nothing of the first contents
    is left in the files. *)
Theorem write_output_last_write_wins (NOW : string)
    (fs : gmap string file_content) (first second : pydict Book)
    (out_type : string) (flag_j flag_c : bool) :
  write_output NOW (write_output NOW fs first out_type flag_j flag_c)
    second out_type flag_j flag_c
  = write_output NOW fs second out_type flag_j flag_c.
Proof.
  pose proof (csv_json_paths_differ NOW out_type) as Hne.
  unfold write_output. destruct flag_j, flag_c;
    rewrite ?insert_insert_eq; try done.
  rewrite (insert_insert_ne _ (csv_path NOW out_type)
             (json_path NOW out_type)) by done.
  by rewrite !insert_insert_eq.
Qed.

Lemma json_loop_entries todo :
  ∀ content_json,
    NoDup (PyDict.keys todo) →
    (∀ k, k ∈ PyDict.keys todo → k ∉ PyDict.keys content_json) →
    json_loop todo content_json
    = content_json ++ ((λ kv, (kv.1, asdict kv.2)) <$> todo).
Proof.
  induction todo as [|[k b] todo IH]; intros acc Hnd Hfresh.
  - simpl. by rewrite app_nil_r.
  - unfold PyDict.keys in Hnd. rewrite fmap_cons in Hnd.
    apply NoDup_cons in Hnd as [Hk Hnd].
    cbn [json_loop]. rewrite dict_setitem_fresh by (apply Hfresh; left).
    rewrite IH.
    + rewrite fmap_cons. by rewrite <- app_assoc.
    + done.
    + intros k' Hk'. unfold PyDict.keys. rewrite fmap_app, elem_of_app.
      intros [Hacc|Hkk].
      * by apply (Hfresh k'); [right|].
      * simpl in Hkk. apply list_elem_of_singleton in Hkk as ->. done.
Qed.

(** X15: the json file of a catalog has one entry per entry of the
    catalog, under the same key and in the same order, and the entry of a
    record lists its ten fields by name. *)
Theorem write_output_json_entries (NOW : string)
    (fs : gmap string file_content) (contents : pydict Book)
    (out_type : string) (flag_c : bool) :
  PyDict.wf contents →
  write_output NOW fs contents out_type true flag_c
    !! json_path NOW out_type
  = Some (JsonFile ((λ kv, (kv.1, asdict kv.2)) <$> contents)).
Proof.
  intros Hwf. rewrite write_output_json.
  rewrite json_loop_entries; [done | done |].
  intros k _. apply not_elem_of_nil.
Qed.

Lemma write_output_json_entries_witness :
  write_output Sample.NOW ∅ Sample.left "both" true true
    !! json_path Sample.NOW "both"
  = Some (JsonFile [("X", asdict Sample.A1); ("Y", asdict Sample.A4)]).
Proof.
  exact (write_output_json_entries Sample.NOW ∅ Sample.left "both" true
           sample_left_wf).
Defined.

(** ** More on reindexing and comparing *)

Lemma reindex_loop_entries items :
  ∀ lib_asin,
    (∀ k b, (k, b) ∈ items → k = asin b ∧ k ≠ "") →
    NoDup (PyDict.keys items) →
    (∀ k, k ∈ PyDict.keys items → k ∉ PyDict.keys lib_asin) →
    reindex_loop (PyDict.values items) lib_asin = lib_asin ++ items.
Proof.
  induction items as [|[k b] items IH]; intros acc Hid Hnd Hfresh.
  - simpl. by rewrite app_nil_r.
  - unfold PyDict.keys in Hnd. rewrite fmap_cons in Hnd.
    apply NoDup_cons in Hnd as [Hk Hnd].
    destruct (Hid k b) as [-> Hne]; [left|].
    assert (Hacc : asin b ∉ PyDict.keys acc) by (apply Hfresh; left).
    unfold PyDict.values. rewrite fmap_cons. cbn [snd reindex_loop].
    assert (Hg : truthy (asin b) && negb (PyDict.contains (asin b) acc)
                 = true).
    { apply reindex_guard. split; [done | by apply dict_lookup_None]. }
    rewrite Hg. rewrite dict_setitem_fresh by done.
    replace (acc ++ (asin b, b) :: items)
      with ((acc ++ [(asin b, b)]) ++ items) by (by rewrite <- app_assoc).
    apply IH.
    + intros k' b' Hin. apply Hid. by right.
    + done.
    + intros k' Hk'. unfold PyDict.keys. rewrite fmap_app, elem_of_app.
      intros [Hin|Hkk].
      * by apply (Hfresh k'); [right|].
      * simpl in Hkk. apply list_elem_of_singleton in Hkk as ->. done.
Qed.

(** X16: reindexing is idempotent: a catalog that is already keyed by
    asin comes back unchanged, in the same order. *)
Theorem reindex_idempotent (lib : pydict Book) :
  reindex (reindex lib) = reindex lib.
Proof.
  unfold reindex at 1. rewrite reindex_loop_entries; [done | | |].
  - intros k b Hin. by apply reindex_elem in Hin as (? & ? & _).
  - apply reindex_wf.
  - intros k _. apply not_elem_of_nil.
Qed.

Lemma reindex_loop_lossless todo :
  ∀ lib_asin,
    length (reindex_loop todo lib_asin) = length lib_asin + length todo
    ↔ (∀ b, b ∈ todo → asin b ≠ "" ∧ asin b ∉ PyDict.keys lib_asin)
      ∧ NoDup (asin <$> todo).
Proof.
  induction todo as [|ab todo IH]; intros acc.
  - simpl. split; [|lia]. intros _. split; [|apply NoDup_nil_2].
    intros b Hb. by apply elem_of_nil in Hb.
  - cbn [reindex_loop].
    destruct (truthy (asin ab) && negb (PyDict.contains (asin ab) acc))
      eqn:Hg.
    + apply reindex_guard in Hg as [Hne Hnone%dict_lookup_None].
      rewrite dict_setitem_fresh by done.
      assert (Hlen : length (acc ++ [(asin ab, ab)]) + length todo
                     = length acc + length (ab :: todo))
        by (rewrite length_app; simpl; lia).
      rewrite <- Hlen, IH, fmap_cons, NoDup_cons.
      unfold PyDict.keys. rewrite fmap_app. simpl. split.
      * intros [Hall Hnd]. split_and!; [|  | done].
        -- intros b [->|Hb]%elem_of_cons; [done|].
           destruct (Hall b Hb) as [? Hnot].
           rewrite elem_of_app in Hnot. split; [done | tauto].
        -- intros (b & Heq & Hb)%list_elem_of_fmap.
           destruct (Hall b Hb) as [_ Hnot]. apply Hnot.
           rewrite elem_of_app, list_elem_of_singleton. by right.
      * intros (Hall & Hfirst & Hnd). split; [|done].
        intros b Hb. destruct (Hall b) as [? ?]; [by right|].
        split; [done|]. rewrite elem_of_app, list_elem_of_singleton.
        intros [?|Heq]; [done|]. apply Hfirst.
        apply list_elem_of_fmap. by exists b.
    + pose proof (reindex_loop_length todo acc) as Hle. simpl. split; [lia|].
      intros [Hall _]. destruct (Hall ab) as [Hne Hnot]; [left|].
      assert (truthy (asin ab) && negb (PyDict.contains (asin ab) acc) = true)
        by (apply reindex_guard; split; [done | by apply dict_lookup_None]).
      congruence.
Qed.

(** X17: reindexing loses no record exactly when every record of the
    catalog has an asin and no two records share one: only then has the
    asin-keyed catalog as many entries as the catalog. *)
Theorem reindex_lossless_iff (lib : pydict Book) :
  length (reindex lib) = length lib
  ↔ (∀ b, b ∈ PyDict.values lib → asin b ≠ "")
    ∧ NoDup (asin <$> PyDict.values lib).
Proof.
  unfold reindex.
  assert (Hlen : length lib = length ([] : pydict Book)
                              + length (PyDict.values lib))
    by (unfold PyDict.values; by rewrite length_fmap).
  rewrite Hlen, reindex_loop_lossless. split.
  - intros [Hall Hnd]. split; [|done]. intros b Hb. by apply Hall.
  - intros [Hall Hnd]. split; [|done]. intros b Hb.
    split; [by apply Hall | apply not_elem_of_nil].
Qed.

Lemma filter_all {A} (P : A → Prop) `{!∀ x, Decision (P x)} (l : list A) :
  (∀ x, x ∈ l → P x) → filter P l = l.
Proof.
  induction l as [|x l IH]; intros Hall; [done|].
  rewrite filter_cons_True by (apply Hall; left).
  rewrite IH; [done|]. intros y Hy. apply Hall. by right.
Qed.

Lemma filter_none {A} (P : A → Prop) `{!∀ x, Decision (P x)} (l : list A) :
  (∀ x, x ∈ l → ¬ P x) → filter P l = [].
Proof.
  induction l as [|x l IH]; intros Hall; [done|].
  rewrite filter_cons_False by (apply Hall; left).
  apply IH. intros y Hy. apply Hall. by right.
Qed.

(** X18: the edge cases of the comparison.  A catalog compared with
    itself is all in [both]; compared with an empty catalog it is all in
    [missing]; and an empty catalog gives two empty outputs whatever it
    is compared with. *)
Theorem compare_libs_self_and_empty (left : pydict Book) :
  PyDict.wf left →
  compare_libs left left = Ok {| both := left; missing := [] |}
  ∧ compare_libs left [] = Ok {| both := []; missing := left |}
  ∧ ∀ right, compare_libs [] right = Ok {| both := []; missing := [] |}.
Proof.
  intros Hwf. split_and!; [| |done].
  - rewrite compare_libs_filter by done. f_equal. f_equal.
    + apply filter_all. intros [k b] Hin. apply elem_of_dict_keys.
      by exists b.
    + apply filter_none. intros [k b] Hin Hnot. apply Hnot.
      apply elem_of_dict_keys. by exists b.
  - rewrite compare_libs_filter by done. f_equal. f_equal.
    + apply filter_none. intros kv _ Hin. by apply elem_of_nil in Hin.
    + apply filter_all. intros kv _ Hin. by apply elem_of_nil in Hin.
Qed.

Lemma compare_libs_self_and_empty_witness :
  compare_libs Sample.left Sample.left
  = Ok {| both := Sample.left; missing := [] |}.
Proof.
  exact (proj1 (compare_libs_self_and_empty Sample.left sample_left_wf)).
Defined.

(** X19: the two directions of the comparison split the keys of the two
    catalogs three ways: a key of either catalog is in [both], or missing
    from the second catalog, or missing from the first, and in one of the
    three only.  In particular no key is reported missing in both
    directions. *)
Theorem compare_libs_three_way (left right : pydict Book) :
  PyDict.wf left → PyDict.wf right →
  ∃ p q, compare_libs left right = Ok p
    ∧ compare_libs right left = Ok q
    ∧ (∀ k, k ∈ PyDict.keys left ∨ k ∈ PyDict.keys right
            ↔ k ∈ PyDict.keys (both p) ∨ k ∈ PyDict.keys (missing p)
              ∨ k ∈ PyDict.keys (missing q))
    ∧ (∀ k, ¬ (k ∈ PyDict.keys (both p) ∧ k ∈ PyDict.keys (missing p)))
    ∧ (∀ k, ¬ (k ∈ PyDict.keys (both p) ∧ k ∈ PyDict.keys (missing q)))
    ∧ (∀ k, ¬ (k ∈ PyDict.keys (missing p) ∧ k ∈ PyDict.keys (missing q))).
Proof.
  intros Hl Hr. do 2 eexists.
  split; [by apply compare_libs_filter|].
  split; [by apply compare_libs_filter|]. simpl.
  split_and!; intros k;
    rewrite ?(keys_filter_shared left right k),
            ?(keys_filter_unshared left right k),
            ?(keys_filter_unshared right left k).
  - destruct (decide (k ∈ PyDict.keys left)),
             (decide (k ∈ PyDict.keys right)); tauto.
  - tauto.
  - tauto.
  - tauto.
Qed.

Lemma compare_libs_three_way_witness :
  ∃ p q, compare_libs Sample.left Sample.right = Ok p
    ∧ compare_libs Sample.right Sample.left = Ok q
    ∧ ∀ k, ¬ (k ∈ PyDict.keys (missing p) ∧ k ∈ PyDict.keys (missing q)).
Proof.
  destruct (compare_libs_three_way Sample.left Sample.right
              sample_left_wf sample_right_wf)
    as (p & q & Hp & Hq & _ & _ & _ & Hdisj).
  exists p, q. split_and!; assumption.
Defined.


(** ** Dictionaries with values of any kind as keys *)

Section RawDict.
Context {V : Type}.
Implicit Types (d : Raw.dict V) (h : Raw.hkey) (k : json) (v : V).

Lemma raw_find_None d h : Raw.find d h = None ↔ h ∉ Raw.classes d.
Proof.
  unfold Raw.classes. induction d as [|[h' e] d IH]; simpl.
  - split; [intros _; apply not_elem_of_nil | done].
  - destruct (decide (h' = h)) as [->|Hne].
    + split; [done | intros H; exfalso; apply H; left].
    + rewrite IH, not_elem_of_cons. split; [by intros ? | by intros [_ ?]].
Qed.

Lemma raw_find_elem d h e : Raw.find d h = Some e → (h, e) ∈ d.
Proof.
  induction d as [|[h' e'] d IH]; simpl; [done|].
  destruct (decide (h' = h)) as [->|Hne].
  - intros [= ->]. left.
  - intros H. right. auto.
Qed.

Lemma raw_find_wf d h e :
  NoDup (Raw.classes d) → (h, e) ∈ d → Raw.find d h = Some e.
Proof.
  unfold Raw.classes. induction d as [|[h' e'] d IH]; simpl; intros Hnd Hin.
  - by apply elem_of_nil in Hin.
  - apply NoDup_cons in Hnd as [Hh' Hnd].
    apply elem_of_cons in Hin as [[= -> ->]|Hin].
    + by rewrite decide_True.
    + destruct (decide (h' = h)) as [->|Hne]; [|auto].
      exfalso. apply Hh'. apply list_elem_of_fmap. by exists (h, e).
Qed.

Lemma raw_find_store_ne d h k v h' :
  h ≠ h' → Raw.find (Raw.store d h k v) h' = Raw.find d h'.
Proof.
  intros Hne. induction d as [|[h0 [k0 v0]] d IH]; simpl.
  - by rewrite decide_False.
  - destruct (decide (h0 = h)) as [->|Hne0]; simpl.
    + by rewrite !decide_False.
    + by rewrite IH.
Qed.

Lemma raw_find_store_eq d h k v :
  ∃ k0, Raw.find (Raw.store d h k v) h = Some (k0, v).
Proof.
  induction d as [|[h0 [k0 v0]] d IH]; simpl.
  - exists k. by rewrite decide_True.
  - destruct (decide (h0 = h)) as [->|Hne0]; simpl.
    + exists k0. by rewrite decide_True.
    + by rewrite decide_False.
Qed.

Lemma raw_store_fresh d h k v :
  h ∉ Raw.classes d → Raw.store d h k v = d ++ [(h, (k, v))].
Proof.
  unfold Raw.classes. induction d as [|[h0 [k0 v0]] d IH]; simpl; [done|].
  rewrite not_elem_of_cons. intros [Hne Hh].
  rewrite decide_False by done. by rewrite IH.
Qed.

Lemma raw_store_classes d h k v :
  Raw.classes (Raw.store d h k v)
  = if decide (h ∈ Raw.classes d) then Raw.classes d
    else Raw.classes d ++ [h].
Proof.
  unfold Raw.classes. induction d as [|[h0 [k0 v0]] d IH].
  - done.
  - cbn [Raw.store]. destruct (decide (h0 = h)) as [->|Hne].
    + rewrite decide_True; [done | left].
    + rewrite !fmap_cons, IH. simpl.
      destruct (decide (h ∈ d.*1)) as [Hin|Hnin].
      * rewrite decide_True; [done | by right].
      * rewrite decide_False; [done|].
        rewrite not_elem_of_cons. by split.
Qed.

Lemma raw_store_elem d h k v h' k' v' :
  (h', (k', v')) ∈ Raw.store d h k v →
  (∃ v0, (h', (k', v0)) ∈ d ∧ (h' = h ∧ v' = v ∨ v' = v0))
  ∨ (h' = h ∧ k' = k ∧ v' = v ∧ h ∉ Raw.classes d).
Proof.
  unfold Raw.classes. induction d as [|[h0 [k0 v0]] d IH]; simpl.
  - intros [= -> -> ->]%list_elem_of_singleton. right.
    split_and!; try done. apply not_elem_of_nil.
  - destruct (decide (h0 = h)) as [->|Hne].
    + intros [[= -> -> ->]|Hin]%elem_of_cons.
      * left. exists v0. split; [left | by left].
      * left. exists v'. split; [by right | by right].
    + intros [[= -> -> ->]|Hin]%elem_of_cons.
      * left. exists v0. split; [left | by right].
      * destruct (IH Hin) as [(v1 & Hin1 & Hv)|(-> & -> & -> & Hnin)].
        -- left. exists v1. split; [by right | done].
        -- right. split_and!; try done. rewrite not_elem_of_cons. by split.
Qed.

Lemma raw_store_wf d h k v :
  Raw.wf d → Raw.key_of k = Some h → Raw.wf (Raw.store d h k v).
Proof.
  intros [Hnd Hkeys] Hk. split.
  - rewrite raw_store_classes. destruct (decide (h ∈ Raw.classes d)); [done|].
    apply NoDup_app. split_and!; [done | | apply NoDup_singleton].
    intros h' Hh' ->%list_elem_of_singleton. done.
  - intros h' k' v' [(v0 & Hin & _)|(-> & -> & _)]%raw_store_elem;
      [by eapply Hkeys | done].
Qed.

Lemma raw_store_length d h k v :
  length (Raw.store d h k v) ≤ S (length d).
Proof.
  induction d as [|[h0 [k0 v0]] d IH]; simpl; [lia|].
  destruct (decide (h0 = h)); simpl; lia.
Qed.

Lemma raw_wf_nil : Raw.wf ([] : Raw.dict V).
Proof.
  split; [apply NoDup_nil_2|]. intros h k v Hin. by apply elem_of_nil in Hin.
Qed.
End RawDict.

(** ** The fetch on values of any kind *)

Lemma raw_fetch_loop_catalog todo :
  ∀ (title_library lib : Raw.dict Raw.Book),
    Raw.fetch_loop todo title_library = Raw.Ok lib →
    Raw.wf title_library →
    (∀ h k b, (h, (k, b)) ∈ title_library →
              Raw.key_of (Raw.id b) = Some h) →
    Raw.wf lib
    ∧ length lib ≤ length title_library + length todo
    ∧ ∀ h k b, (h, (k, b)) ∈ lib →
        Raw.key_of (Raw.id b) = Some h
        ∧ ((h, (k, b)) ∈ title_library
           ∨ ∃ result, result ∈ todo ∧ Raw.Book_of_result result = Raw.Ok b).
Proof.
  induction todo as [|result todo IH]; intros acc lib; simpl.
  - intros [= <-] Hwf Hid. split_and!; [done | lia |].
    intros h k b Hin. split; [by eapply Hid | by left].
  - destruct (Raw.Book_of_result result) as [b0|] eqn:Hb0; [|done].
    cbn [mbind Raw.res_bind]. unfold Raw.setitem.
    destruct (Raw.key_of (Raw.id b0)) as [h0|] eqn:Hk0; [|done].
    cbn [mbind Raw.res_bind]. intros Hloop Hwf Hid.
    destruct (IH _ _ Hloop) as (Hwf' & Hlen & Hin').
    + by apply raw_store_wf.
    + intros h k b [(v0 & Hin & [[-> ->]| ->])|(-> & -> & -> & _)]%raw_store_elem;
        [done | by eapply Hid | done].
    + split_and!; [done | |].
      * pose proof (raw_store_length acc h0 (Raw.id b0) b0). lia.
      * intros h k b Hin. destruct (Hin' h k b Hin) as [Hk [Hacc|Hres]].
        -- split; [done|].
           apply raw_store_elem in Hacc
             as [(v0 & Hin0 & [[-> ->]| ->])|(-> & -> & -> & _)].
           ++ right. exists result. split; [left | done].
           ++ by left.
           ++ right. exists result. split; [left | done].
        -- split; [done|]. right.
           destruct Hres as (x & Hx & Hbx). exists x. split; [by right | done].
Qed.

(** X6: when [get_library] returns a catalog, whatever the kinds of the
    values in the response, the body is JSON with a [results] value that
    can be iterated; the catalog has no key twice and at most as many
    entries as [results] has; the key of every record is its own id (the
    id has the class the record is filed under, and so has the key); and
    every record was built from one of the entries of [results]. *)
Theorem get_library_catalog (r : response) (lib : Raw.dict Raw.Book) :
  Raw.get_library r = Raw.Ok lib →
  ∃ j results todo,
    json_body r = Some j
    ∧ Raw.subscript j "results" = Raw.Ok results
    ∧ Raw.iterate results = Raw.Ok todo
    ∧ Raw.wf lib
    ∧ length lib ≤ length todo
    ∧ ∀ h k b, (h, (k, b)) ∈ lib →
        Raw.key_of k = Some h
        ∧ Raw.key_of (Raw.id b) = Some h
        ∧ ∃ result, result ∈ todo ∧ Raw.Book_of_result result = Raw.Ok b.
Proof.
  unfold Raw.get_library. destruct (status_ok r); [|done].
  destruct (json_body r) as [j|]; [|done].
  destruct (Raw.subscript j "results") as [results|] eqn:Hr; [|done].
  cbn [mbind Raw.res_bind].
  destruct (Raw.iterate results) as [todo|] eqn:Hi; [|done].
  cbn [mbind Raw.res_bind]. intros Hloop.
  destruct (raw_fetch_loop_catalog _ _ _ Hloop) as (Hwf & Hlen & Hin).
  - apply raw_wf_nil.
  - intros h k b Hin. by apply elem_of_nil in Hin.
  - exists j, results, todo. split_and!; try done.
    intros h k b Hkb. destruct (Hin h k b Hkb) as [Hk [Hnil|Hres]].
    + by apply elem_of_nil in Hnil.
    + split_and!; [by eapply (proj2 Hwf) | done | done].
Qed.

Lemma raw_fetch_loop_untouched todo :
  ∀ (title_library lib : Raw.dict Raw.Book) h,
    Raw.fetch_loop todo title_library = Raw.Ok lib →
    (∀ x b, x ∈ todo → Raw.Book_of_result x = Raw.Ok b →
            Raw.key_of (Raw.id b) ≠ Some h) →
    Raw.find lib h = Raw.find title_library h.
Proof.
  induction todo as [|result todo IH]; intros acc lib h; simpl.
  - by intros [= <-] _.
  - destruct (Raw.Book_of_result result) as [b0|] eqn:Hb0; [|done].
    cbn [mbind Raw.res_bind]. unfold Raw.setitem.
    destruct (Raw.key_of (Raw.id b0)) as [h0|] eqn:Hk0; [|done].
    cbn [mbind Raw.res_bind]. intros Hloop Hh.
    rewrite (IH _ _ _ Hloop) by (intros x b Hx; apply Hh; by right).
    apply raw_find_store_ne. intros ->.
    by apply (Hh result b0 ltac:(left) Hb0).
Qed.

Lemma raw_fetch_loop_app pre post :
  ∀ (title_library lib : Raw.dict Raw.Book),
    Raw.fetch_loop (pre ++ post) title_library = Raw.Ok lib →
    ∃ mid, Raw.fetch_loop pre title_library = Raw.Ok mid
           ∧ Raw.fetch_loop post mid = Raw.Ok lib.
Proof.
  induction pre as [|x pre IH]; intros acc lib; simpl.
  - intros Hloop. by exists acc.
  - destruct (Raw.Book_of_result x) as [b|]; [|done].
    cbn [mbind Raw.res_bind].
    destruct (Raw.setitem acc (Raw.id b) b) as [acc'|]; [|done].
    cbn [mbind Raw.res_bind]. apply IH.
Qed.

(** X7: when two entries of a response have the same id, the catalog
    holds the record of the later one under that id (the reindexing keeps
    the first): the record built from an entry is the one found under its
    id whenever no entry after it builds a record whose id is the same
    key.  This holds for ids and fields of any kind. *)
Theorem get_library_last_id_wins (r : response) (j : json)
    (pre post : list json) (result : json) (b : Raw.Book)
    (lib : Raw.dict Raw.Book) :
  status_ok r = true → json_body r = Some j →
  Raw.subscript j "results" = Raw.Ok (JArr (pre ++ result :: post)) →
  Raw.get_library r = Raw.Ok lib →
  Raw.Book_of_result result = Raw.Ok b →
  (∀ x b', x ∈ post → Raw.Book_of_result x = Raw.Ok b' →
           Raw.key_of (Raw.id b') ≠ Raw.key_of (Raw.id b)) →
  Raw.getitem lib (Raw.id b) = Raw.Ok b.
Proof.
  intros Hok Hbody Hres Hget Hb Hpost.
  unfold Raw.get_library in Hget. rewrite Hok, Hbody, Hres in Hget.
  cbn [mbind Raw.res_bind Raw.iterate] in Hget.
  apply raw_fetch_loop_app in Hget as (mid & _ & Hrest).
  simpl in Hrest. rewrite Hb in Hrest. cbn [mbind Raw.res_bind] in Hrest.
  unfold Raw.setitem in Hrest. unfold Raw.getitem.
  destruct (Raw.key_of (Raw.id b)) as [h|] eqn:Hk; [|done].
  cbn [mbind Raw.res_bind] in Hrest.
  rewrite (raw_fetch_loop_untouched _ _ _ h Hrest)
    by (intros x b' Hx Hb'; exact (Hpost x b' Hx Hb')).
  by destruct (raw_find_store_eq mid h (Raw.id b) b) as [k0 ->].
Qed.

Lemma get_library_catalog_witness :
  Raw.get_library SampleRaw.reply_one
  = Raw.Ok [(Raw.KStr "1", (JStr "1", SampleRaw.book "1" (JStr "X")));
            (Raw.KStr "2", (JStr "2", SampleRaw.book "2" JNull));
            (Raw.KStr "4", (JStr "4", SampleRaw.book "4" (JStr "Y")))]
  ∧ ∃ j results todo,
      json_body SampleRaw.reply_one = Some j
      ∧ Raw.subscript j "results" = Raw.Ok results
      ∧ Raw.iterate results = Raw.Ok todo
      ∧ Raw.wf [(Raw.KStr "1", (JStr "1", SampleRaw.book "1" (JStr "X")));
                (Raw.KStr "2", (JStr "2", SampleRaw.book "2" JNull));
                (Raw.KStr "4", (JStr "4", SampleRaw.book "4" (JStr "Y")))]
      ∧ 3 ≤ length todo.
Proof.
  split; [reflexivity|].
  destruct (get_library_catalog SampleRaw.reply_one _ eq_refl)
    as (j & results & todo & Hj & Hr & Hi & Hwf & Hlen & _).
  exists j, results, todo. split_and!; assumption.
Defined.

Lemma get_library_last_id_wins_witness :
  Raw.getitem
    [(Raw.KStr "1", (JStr "1", SampleRaw.book "1" (JStr "Y")));
     (Raw.KStr "2", (JStr "2", SampleRaw.book "2" JNull))]
    (JStr "1")
  = Raw.Ok (SampleRaw.book "1" (JStr "Y")).
Proof.
  apply (get_library_last_id_wins SampleRaw.reply_twice
           (JObj [("results",
                   JArr [SampleRaw.entry "1" (JStr "X");
                         SampleRaw.entry "1" (JStr "Y");
                         SampleRaw.entry "2" JNull])])
           [SampleRaw.entry "1" (JStr "X")] [SampleRaw.entry "2" JNull]
           (SampleRaw.entry "1" (JStr "Y")) (SampleRaw.book "1" (JStr "Y")));
    try reflexivity.
  intros x b' ->%list_elem_of_singleton [= <-]. discriminate.
Defined.

(** ** Reindexing, comparing and writing on values of any kind *)

Lemma raw_find_Some {V} (d : Raw.dict V) h e :
  Raw.find d h = Some e → h ∈ Raw.classes d.
Proof.
  intros Hf%raw_find_elem. unfold Raw.classes.
  apply list_elem_of_fmap. by exists (h, e).
Qed.

Lemma raw_wf_filter {V} (P : Raw.hkey * (json * V) → Prop)
    `{!∀ x, Decision (P x)} (d : Raw.dict V) :
  Raw.wf d → Raw.wf (filter P d).
Proof.
  intros [Hnd Hkeys]. split.
  - unfold Raw.classes. eapply sublist_NoDup; [exact Hnd|].
    apply fmap_sublist, sublist_filter.
  - intros h k v [_ Hin]%list_elem_of_filter. by eapply Hkeys.
Qed.

Lemma raw_reindex_loop_wf todo :
  ∀ lib_asin lib,
    Raw.reindex_loop todo lib_asin = Raw.Ok lib → Raw.wf lib_asin →
    Raw.wf lib ∧ length lib ≤ length lib_asin + length todo.
Proof.
  induction todo as [|ab todo IH]; intros acc lib; simpl.
  - intros [= <-] Hwf. split; [done | lia].
  - destruct (Raw.truthy (Raw.asin ab)).
    + unfold Raw.contains, Raw.setitem.
      destruct (Raw.key_of (Raw.asin ab)) as [h|] eqn:Hk; [|done].
      cbn [mbind Raw.res_bind].
      destruct (Raw.find acc h) eqn:Hf; cbn [negb mbind Raw.res_bind].
      * intros Hloop Hwf. destruct (IH _ _ Hloop Hwf). split; [done | lia].
      * intros Hloop Hwf. destruct (IH _ _ Hloop) as [? Hlen].
        { by apply raw_store_wf. }
        split; [done|].
        pose proof (raw_store_length acc h (Raw.asin ab) ab). lia.
    + intros Hloop Hwf. destruct (IH _ _ Hloop Hwf). split; [done | lia].
Qed.



Lemma raw_compare_loop_filter (lib_one lib_two : Raw.dict Raw.Book) items :
  ∀ both_books missing_books,
    (∀ h k b, (h, (k, b)) ∈ items →
              Raw.key_of k = Some h ∧ Raw.find lib_one h = Some (k, b)) →
    NoDup (Raw.classes items) →
    (∀ h, h ∈ Raw.classes items →
          (h ∉ Raw.classes both_books) ∧ (h ∉ Raw.classes missing_books)) →
    Raw.compare_loop (Raw.keys items) lib_one lib_two both_books missing_books
    = Raw.Ok {| Raw.both := both_books ++ filter (raw_shared lib_two) items;
                Raw.missing :=
                  missing_books
                  ++ filter (λ e, ¬ raw_shared lib_two e) items |}.
Proof.
  induction items as [|[h [k b]] items IH]; intros bb mb Hget Hnd Hfresh.
  - simpl. by rewrite !filter_nil, !app_nil_r.
  - unfold Raw.classes in Hnd. simpl in Hnd.
    apply NoDup_cons in Hnd as [Hh Hnd].
    destruct (Hfresh h) as [Hhb Hhm]; [left|].
    destruct (Hget h k b) as [Hk Hf]; [left|].
    assert (Hrest : ∀ h' (acc : Raw.dict Raw.Book),
               h' ∈ Raw.classes items → h' ∉ Raw.classes acc →
               h' ∉ Raw.classes (acc ++ [(h, (k, b))])).
    { intros h' acc Hh' Hacc. unfold Raw.classes.
      rewrite fmap_app, elem_of_app. intros [?|Hin]; [done|].
      simpl in Hin. apply list_elem_of_singleton in Hin as ->. done. }
    simpl. unfold Raw.contains, Raw.getitem, Raw.setitem.
    rewrite Hk. cbn [mbind Raw.res_bind]. rewrite Hf.
    cbn [mbind Raw.res_bind].
    destruct (Raw.find lib_two h) as [e|] eqn:Hc.
    + apply raw_find_Some in Hc.
      rewrite raw_store_fresh by done.
      rewrite IH; cycle 1.
      * intros h' k' b' Hin. apply Hget. by right.
      * done.
      * intros h' Hh'. destruct (Hfresh h') as [? ?]; [by right|].
        split; [by apply Hrest | done].
      * rewrite filter_cons_True by done.
        rewrite filter_cons_False by (intros Hn; by apply Hn).
        by rewrite <- app_assoc.
    + apply raw_find_None in Hc.
      rewrite raw_store_fresh by done.
      rewrite IH; cycle 1.
      * intros h' k' b' Hin. apply Hget. by right.
      * done.
      * intros h' Hh'. destruct (Hfresh h') as [? ?]; [by right|].
        split; [done | by apply Hrest].
      * rewrite filter_cons_False by done.
        rewrite filter_cons_True by done.
        by rewrite <- app_assoc.
Qed.

Lemma raw_compare_libs_filter (lib_one lib_two : Raw.dict Raw.Book) :
  Raw.wf lib_one →
  Raw.compare_libs lib_one lib_two
  = Raw.Ok {| Raw.both := filter (raw_shared lib_two) lib_one;
              Raw.missing := filter (λ e, ¬ raw_shared lib_two e) lib_one |}.
Proof.
  intros [Hnd Hkeys]. unfold Raw.compare_libs.
  rewrite raw_compare_loop_filter; [done | | done |].
  - intros h k b Hin. split; [by eapply Hkeys | by apply raw_find_wf].
  - intros h _. split; apply not_elem_of_nil.
Qed.

Lemma raw_classes_filter_shared (left right : Raw.dict Raw.Book) h :
  h ∈ Raw.classes (filter (raw_shared right) left)
  ↔ h ∈ Raw.classes left ∧ h ∈ Raw.classes right.
Proof.
  unfold Raw.classes at 1 2. rewrite !list_elem_of_fmap. split.
  - intros [e [-> [Hs Hin]%list_elem_of_filter]]. split; [by exists e | exact Hs].
  - intros [[e [-> Hin]] Hr]. exists e. split; [done|].
    apply list_elem_of_filter. split; [exact Hr | done].
Qed.

Lemma raw_both_lengths_agree (left right : Raw.dict Raw.Book) :
  Raw.wf left → Raw.wf right →
  length (filter (raw_shared right) left)
  = length (filter (raw_shared left) right).
Proof.
  intros Hl Hr.
  rewrite <- (length_fmap fst (filter (raw_shared right) left)).
  rewrite <- (length_fmap fst (filter (raw_shared left) right)).
  apply Permutation_length, NoDup_Permutation.
  - by apply (raw_wf_filter (raw_shared right)).
  - by apply (raw_wf_filter (raw_shared left)).
  - intros h.
    pose proof (raw_classes_filter_shared left right h) as H1.
    pose proof (raw_classes_filter_shared right left h) as H2.
    unfold Raw.classes in H1, H2. tauto.
Qed.

Lemma raw_filter_lengths {A} (P : A → Prop) `{!∀ x, Decision (P x)}
    (l : list A) :
  length (filter P l) + length (filter (λ x, ¬ P x) l) = length l.
Proof.
  rewrite <- length_app. apply Permutation_length, filter_app_complement.
Qed.

Lemma raw_json_loop_entries items :
  ∀ content_json,
    (∀ h k b, (h, (k, b)) ∈ items → Raw.key_of k = Some h) →
    NoDup (Raw.classes items) →
    (∀ h, h ∈ Raw.classes items → h ∉ Raw.classes content_json) →
    Raw.json_loop (Raw.items items) content_json
    = Raw.Ok (content_json ++ raw_content_json items).
Proof.
  induction items as [|[h [k b]] items IH]; intros acc Hkeys Hnd Hfresh.
  - simpl. by rewrite app_nil_r.
  - unfold Raw.classes in Hnd. simpl in Hnd.
    apply NoDup_cons in Hnd as [Hh Hnd].
    simpl. unfold Raw.setitem. rewrite (Hkeys h k b) by left.
    cbn [mbind Raw.res_bind].
    rewrite raw_store_fresh by (apply Hfresh; left).
    rewrite IH; cycle 1.
    + intros h' k' b' Hin. eapply Hkeys. by right.
    + done.
    + intros h' Hh'. unfold Raw.classes.
      rewrite fmap_app, elem_of_app. intros [Hin|Hin].
      * by apply (Hfresh h'); [right|].
      * simpl in Hin. apply list_elem_of_singleton in Hin as ->. done.
    + by rewrite <- app_assoc.
Qed.

Lemma raw_write_output_returns NOW fs (contents : Raw.dict Raw.Book)
    out_type flag_j flag_c :
  Raw.wf contents →
  Raw.write_output NOW fs contents out_type flag_j flag_c
  = Raw.Ok (raw_written NOW fs contents out_type flag_j flag_c).
Proof.
  intros [Hnd Hkeys]. unfold Raw.write_output, raw_written.
  destruct flag_j; [|done].
  rewrite raw_json_loop_entries; [done | done | done |].
  intros h _. apply not_elem_of_nil.
Qed.

Lemma raw_written_other NOW fs contents out_type flag_j flag_c p :
  (flag_c = true → p ≠ csv_path NOW out_type) →
  (flag_j = true → p ≠ json_path NOW out_type) →
  raw_written NOW fs contents out_type flag_j flag_c !! p = fs !! p.
Proof.
  intros Hc Hj. unfold raw_written. destruct flag_j, flag_c;
    rewrite ?lookup_insert_ne; auto using not_eq_sym.
Qed.

Lemma raw_written_csv NOW fs contents out_type flag_j :
  raw_written NOW fs contents out_type flag_j true !! csv_path NOW out_type
  = Some (Raw.CsvFile (Raw.csv_header
                       :: (Raw.csv_row <$> Raw.values contents))).
Proof.
  unfold raw_written. destruct flag_j.
  - rewrite lookup_insert_ne by (apply not_eq_sym, csv_json_paths_differ).
    apply lookup_insert_eq.
  - apply lookup_insert_eq.
Qed.

Lemma raw_get_library_wf r lib : Raw.get_library r = Raw.Ok lib → Raw.wf lib.
Proof.
  unfold Raw.get_library. destruct (status_ok r); [|done].
  destruct (json_body r) as [j|]; [|done].
  destruct (Raw.subscript j "results") as [results|]; [|done].
  cbn [mbind Raw.res_bind].
  destruct (Raw.iterate results) as [todo|]; [|done].
  cbn [mbind Raw.res_bind]. intros Hloop.
  apply (raw_fetch_loop_catalog _ _ _ Hloop); [apply raw_wf_nil|].
  intros h k b Hin. by apply elem_of_nil in Hin.
Qed.

Lemma raw_reindex_wf lib lib_asin :
  Raw.reindex lib = Raw.Ok lib_asin →
  Raw.wf lib_asin ∧ length lib_asin ≤ length lib.
Proof.
  unfold Raw.reindex. intros Hloop.
  destruct (raw_reindex_loop_wf _ _ _ Hloop raw_wf_nil) as [Hwf Hlen].
  split; [done|]. unfold Raw.values in Hlen. rewrite length_fmap in Hlen.
  simpl in Hlen. lia.
Qed.

(** What a run does once both catalogs are fetched and reindexed. *)
Lemma raw_main_returns NOW resp_one resp_two flag_c flag_j fs
    lib_one lib_two lib_one_asin lib_two_asin :
  Raw.get_library resp_one = Raw.Ok lib_one →
  Raw.get_library resp_two = Raw.Ok lib_two →
  Raw.reindex lib_one = Raw.Ok lib_one_asin →
  Raw.reindex lib_two = Raw.Ok lib_two_asin →
  Raw.main NOW resp_one resp_two flag_c flag_j fs
  = Raw.Ok
      (raw_written NOW
         (raw_written NOW
            (raw_written NOW fs
               (filter (raw_shared lib_two_asin) lib_one_asin)
               "both" flag_j flag_c)
            lib_one "one" flag_j flag_c)
         lib_two "two_full" flag_j flag_c,
       {| one_entries := length lib_one;
          one_asin_len := length lib_one_asin;
          one_missing_len :=
            length (filter (λ e, ¬ raw_shared lib_one_asin e) lib_two_asin);
          two_entries := length lib_two;
          two_asin_len := length lib_two_asin;
          two_missing_len :=
            length (filter (λ e, ¬ raw_shared lib_two_asin e) lib_one_asin);
          len_both := length (filter (raw_shared lib_two_asin) lib_one_asin) |}).
Proof.
  intros H1 H2 Ha1 Ha2. unfold Raw.main.
  rewrite H1, H2. cbn [mbind Raw.res_bind].
  rewrite Ha1, Ha2. cbn [mbind Raw.res_bind].
  destruct (raw_reindex_wf _ _ Ha1) as [Hw1 _].
  destruct (raw_reindex_wf _ _ Ha2) as [Hw2 _].
  rewrite !raw_compare_libs_filter by done. cbn [mbind Raw.res_bind].
  cbn [Raw.both Raw.missing].
  rewrite raw_write_output_returns by (by apply raw_wf_filter).
  cbn [mbind Raw.res_bind].
  rewrite raw_write_output_returns by (by eapply raw_get_library_wf).
  cbn [mbind Raw.res_bind].
  rewrite raw_write_output_returns by (by eapply raw_get_library_wf).
  done.
Qed.

(** ** What a run does *)

(** X9: the figures of the summary panel of a successful run add up,
    whatever the kinds of the values the servers sent: the asins of
    library one are those in both libraries plus those missing from
    library two, the asins of library two are those in both plus those
    missing from library one (the count of asins in both is taken from
    the first comparison only, and the second comparison finds as many),
    and no library has more asins than entries. *)
Theorem main_summary_adds_up (NOW : string) (resp_one resp_two : response)
    (flag_c flag_j : bool) (fs fs' : gmap string Raw.file_content)
    (s : summary) :
  Raw.main NOW resp_one resp_two flag_c flag_j fs = Raw.Ok (fs', s) →
  one_asin_len s = len_both s + two_missing_len s
  ∧ two_asin_len s = len_both s + one_missing_len s
  ∧ one_asin_len s ≤ one_entries s
  ∧ two_asin_len s ≤ two_entries s.
Proof.
  destruct (Raw.get_library resp_one) as [lib_one|e1] eqn:H1;
    [|unfold Raw.main; by rewrite H1].
  destruct (Raw.get_library resp_two) as [lib_two|e2] eqn:H2;
    [|unfold Raw.main; by rewrite H1, H2].
  destruct (Raw.reindex lib_one) as [lib_one_asin|e3] eqn:Ha1;
    [|unfold Raw.main; rewrite H1, H2; cbn [mbind Raw.res_bind];
      by rewrite Ha1].
  destruct (Raw.reindex lib_two) as [lib_two_asin|e4] eqn:Ha2;
    [|unfold Raw.main; rewrite H1, H2; cbn [mbind Raw.res_bind];
      rewrite Ha1; cbn [mbind Raw.res_bind]; by rewrite Ha2].
  rewrite (raw_main_returns _ _ _ _ _ _ _ _ _ _ H1 H2 Ha1 Ha2).
  intros [= _ <-]. simpl.
  destruct (raw_reindex_wf _ _ Ha1) as [Hw1 Hlen1].
  destruct (raw_reindex_wf _ _ Ha2) as [Hw2 Hlen2].
  split_and!.
  - by rewrite raw_filter_lengths.
  - rewrite (raw_both_lengths_agree lib_one_asin lib_two_asin) by done.
    by rewrite raw_filter_lengths.
  - done.
  - done.
Qed.

Lemma main_summary_adds_up_witness :
  ∃ fs' s,
    Raw.main Sample.NOW SampleRaw.reply_one SampleRaw.reply_two true true ∅
    = Raw.Ok (fs', s)
    ∧ one_entries s = 3
    ∧ one_asin_len s = len_both s + two_missing_len s.
Proof.
  pose proof (raw_main_returns Sample.NOW SampleRaw.reply_one
                SampleRaw.reply_two true true ∅ _ _ _ _
                eq_refl eq_refl eq_refl eq_refl) as Hrun.
  destruct (main_summary_adds_up _ _ _ _ _ _ _ _ Hrun) as (Hone & _).
  do 2 eexists. split_and!; [exact Hrun | reflexivity | exact Hone].
Defined.



(** X11: a successful run leaves every file as it was, except the files
    of a format whose flag is set, and of these only the three of [both],
    [one] and [two_full]: a path that is none of the three csv paths when
    the csv flag is set, and none of the three json paths when the json
    flag is set, holds after the run what it held before.  Without a flag
    the file system is left exactly as it was. *)
Theorem main_touches_only_flagged_files (NOW : string)
    (resp_one resp_two : response) (flag_c flag_j : bool)
    (fs fs' : gmap string Raw.file_content) (s : summary) :
  Raw.main NOW resp_one resp_two flag_c flag_j fs = Raw.Ok (fs', s) →
  (∀ p,
     (flag_c = true →
      p ∉ [csv_path NOW "both"; csv_path NOW "one"; csv_path NOW "two_full"]) →
     (flag_j = true →
      p ∉ [json_path NOW "both"; json_path NOW "one";
           json_path NOW "two_full"]) →
     fs' !! p = fs !! p)
  ∧ (flag_c = false → flag_j = false → fs' = fs).
Proof.
  destruct (Raw.get_library resp_one) as [lib_one|e1] eqn:H1;
    [|unfold Raw.main; by rewrite H1].
  destruct (Raw.get_library resp_two) as [lib_two|e2] eqn:H2;
    [|unfold Raw.main; by rewrite H1, H2].
  destruct (Raw.reindex lib_one) as [lib_one_asin|e3] eqn:Ha1;
    [|unfold Raw.main; rewrite H1, H2; cbn [mbind Raw.res_bind];
      by rewrite Ha1].
  destruct (Raw.reindex lib_two) as [lib_two_asin|e4] eqn:Ha2;
    [|unfold Raw.main; rewrite H1, H2; cbn [mbind Raw.res_bind];
      rewrite Ha1; cbn [mbind Raw.res_bind]; by rewrite Ha2].
  rewrite (raw_main_returns _ _ _ _ _ _ _ _ _ _ H1 H2 Ha1 Ha2).
  intros [= <- _]. split.
  - intros p Hc Hj.
    rewrite !raw_written_other; [done | | | | | |];
      intros Hflag Heq; [apply (Hc Hflag) | apply (Hj Hflag)
                         | apply (Hc Hflag) | apply (Hj Hflag)
                         | apply (Hc Hflag) | apply (Hj Hflag)];
      rewrite Heq, !elem_of_cons; tauto.
  - intros -> ->. done.
Qed.

Lemma main_touches_only_flagged_files_witness :
  ∃ fs' s,
    Raw.main Sample.NOW SampleRaw.reply_one SampleRaw.reply_two true false
      SampleRaw.earlier
    = Raw.Ok (fs', s)
    ∧ fs' !! json_path Sample.NOW "both" = Some (Raw.JsonFile []).
Proof.
  pose proof (raw_main_returns Sample.NOW SampleRaw.reply_one
                SampleRaw.reply_two true false SampleRaw.earlier _ _ _ _
                eq_refl eq_refl eq_refl eq_refl) as Hrun.
  destruct (main_touches_only_flagged_files _ _ _ _ _ _ _ _ Hrun)
    as [Honly _].
  do 2 eexists. split; [exact Hrun|].
  rewrite Honly.
  - apply lookup_singleton_eq.
  - intros _ Hin. rewrite !elem_of_cons, elem_of_nil in Hin.
    destruct Hin as [H|[H|[H|[]]]]; discriminate H.
  - intros Hflag. discriminate Hflag.
Defined.

(** X20: what the csv files of a successful run with the csv flag hold,
    whatever the kinds of the values the servers sent.  The file of
    [both] has, under the header, one row for each record of the
    asin-keyed view of library one whose asin is a key of the view of
    library two as well, in the order of library one, so its rows are
    records of library one; the files of [one] and [two_full] have one
    row for each record fetched from library one and from library two.
    None of the three writes disturbs another. *)
Theorem main_csv_files (NOW : string) (resp_one resp_two : response)
    (flag_j : bool) (fs fs' : gmap string Raw.file_content) (s : summary) :
  Raw.main NOW resp_one resp_two true flag_j fs = Raw.Ok (fs', s) →
  ∃ lib_one lib_two lib_one_asin lib_two_asin,
    Raw.get_library resp_one = Raw.Ok lib_one
    ∧ Raw.get_library resp_two = Raw.Ok lib_two
    ∧ Raw.reindex lib_one = Raw.Ok lib_one_asin
    ∧ Raw.reindex lib_two = Raw.Ok lib_two_asin
    ∧ fs' !! csv_path NOW "both"
      = Some (Raw.CsvFile
                (Raw.csv_header
                 :: (Raw.csv_row
                     <$> Raw.values
                           (filter (raw_shared lib_two_asin) lib_one_asin))))
    ∧ fs' !! csv_path NOW "one"
      = Some (Raw.CsvFile
                (Raw.csv_header :: (Raw.csv_row <$> Raw.values lib_one)))
    ∧ fs' !! csv_path NOW "two_full"
      = Some (Raw.CsvFile
                (Raw.csv_header :: (Raw.csv_row <$> Raw.values lib_two))).
Proof.
  destruct (Raw.get_library resp_one) as [lib_one|e1] eqn:H1;
    [|unfold Raw.main; by rewrite H1].
  destruct (Raw.get_library resp_two) as [lib_two|e2] eqn:H2;
    [|unfold Raw.main; by rewrite H1, H2].
  destruct (Raw.reindex lib_one) as [lib_one_asin|e3] eqn:Ha1;
    [|unfold Raw.main; rewrite H1, H2; cbn [mbind Raw.res_bind];
      by rewrite Ha1].
  destruct (Raw.reindex lib_two) as [lib_two_asin|e4] eqn:Ha2;
    [|unfold Raw.main; rewrite H1, H2; cbn [mbind Raw.res_bind];
      rewrite Ha1; cbn [mbind Raw.res_bind]; by rewrite Ha2].
  rewrite (raw_main_returns _ _ _ _ _ _ _ _ _ _ H1 H2 Ha1 Ha2).
  intros [= <- _].
  exists lib_one, lib_two, lib_one_asin, lib_two_asin.
  split_and!; [done | done | done | done | | |].
  - rewrite !raw_written_other
      by (intros _; unfold csv_path, json_path; apply path_differ; by cbn).
    apply raw_written_csv.
  - rewrite raw_written_other
      by (intros _; unfold csv_path, json_path; apply path_differ; by cbn).
    apply raw_written_csv.
  - apply raw_written_csv.
Qed.

Lemma main_csv_files_witness :
  ∃ fs' s,
    Raw.main Sample.NOW SampleRaw.reply_one SampleRaw.reply_two true false ∅
    = Raw.Ok (fs', s)
    ∧ fs' !! csv_path Sample.NOW "both"
      = Some (Raw.CsvFile
                [Raw.csv_header;
                 [JStr "1"; JStr "T1"; JStr "A1"; JStr ""; JNull; JStr "X";
                  JNull; JNum 1700000000000; JNum 3; JNum 1024]]).
Proof.
  pose proof (raw_main_returns Sample.NOW SampleRaw.reply_one
                SampleRaw.reply_two true false ∅ _ _ _ _
                eq_refl eq_refl eq_refl eq_refl) as Hrun.
  destruct (main_csv_files _ _ _ _ _ _ _ Hrun)
    as (l1 & l2 & a1 & a2 & H1 & H2 & Ha1 & Ha2 & Hboth & _).
  do 2 eexists. split; [exact Hrun|].
  injection H1 as <-. injection H2 as <-.
  injection Ha1 as <-. injection Ha2 as <-. exact Hboth.
Defined.

(** ** The typed embedding inside the untyped one *)

Lemma raw_subscript_typed j k v :
  subscript j k = Ok v → Raw.subscript j k = Raw.Ok v.
Proof.
  destruct j; try done. simpl. unfold PyDict.getitem.
  destruct (PyDict.lookup fields k); [|done]. by intros [= ->].
Qed.

Lemma raw_subscripts_typed path :
  ∀ j v, subscripts j path = Ok v → Raw.subscripts j path = Raw.Ok v.
Proof.
  induction path as [|k path IH]; intros j v; simpl.
  - by intros [= ->].
  - destruct (subscript j k) as [j'|] eqn:Hj; [|done].
    rewrite (raw_subscript_typed _ _ _ Hj). cbn [mbind res_bind Raw.res_bind].
    apply IH.
Qed.

Lemma raw_iterate_typed j todo :
  iterate j = Ok todo → Raw.iterate j = Raw.Ok todo.
Proof. destruct j; try done; simpl; by intros [= ->]. Qed.

Lemma as_str_Ok j s : as_str j = Ok s → j = JStr s.
Proof. destruct j; try done. simpl. by intros [= ->]. Qed.

Lemma raw_Book_of_result_typed result b :
  Book_of_result result = Ok b →
  Raw.Book_of_result result = Raw.Ok (raw_book b).
Proof.
  unfold Book_of_result, Raw.Book_of_result.
  destruct (subscripts result ["id"]) as [j1|] eqn:H1; [|done].
  destruct (subscripts result ["media"; "metadata"; "title"])
    as [j2|] eqn:H2; [|done].
  destruct (subscripts result ["media"; "metadata"; "authorName"])
    as [j3|] eqn:H3; [|done].
  destruct (subscripts result ["media"; "metadata"; "seriesName"])
    as [j4|] eqn:H4; [|done].
  destruct (subscripts result ["media"; "metadata"; "publishedYear"])
    as [j5|] eqn:H5; [|done].
  destruct (subscripts result ["media"; "metadata"; "asin"])
    as [j6|] eqn:H6; [|done].
  destruct (subscripts result ["media"; "metadata"; "isbn"])
    as [j7|] eqn:H7; [|done].
  destruct (subscripts result ["addedAt"]) as [j8|] eqn:H8; [|done].
  destruct (subscripts result ["media"; "numAudioFiles"])
    as [j9|] eqn:H9; [|done].
  destruct (subscripts result ["media"; "size"]) as [j10|] eqn:H10; [|done].
  rewrite (raw_subscripts_typed _ _ _ H1), (raw_subscripts_typed _ _ _ H2),
    (raw_subscripts_typed _ _ _ H3), (raw_subscripts_typed _ _ _ H4),
    (raw_subscripts_typed _ _ _ H5), (raw_subscripts_typed _ _ _ H6),
    (raw_subscripts_typed _ _ _ H7), (raw_subscripts_typed _ _ _ H8),
    (raw_subscripts_typed _ _ _ H9), (raw_subscripts_typed _ _ _ H10).
  cbn [mbind res_bind Raw.res_bind].
  destruct (as_str j1) as [s1|] eqn:E1; [|done].
  destruct (as_str j2) as [s2|] eqn:E2; [|done].
  destruct (as_str j3) as [s3|] eqn:E3; [|done].
  destruct (as_str j4) as [s4|] eqn:E4; [|done].
  destruct (as_str j5) as [s5|] eqn:E5; [|done].
  destruct (as_str j6) as [s6|] eqn:E6; [|done].
  destruct (as_str j7) as [s7|] eqn:E7; [|done].
  destruct (as_str j8) as [s8|] eqn:E8; [|done].
  destruct (as_str j9) as [s9|] eqn:E9; [|done].
  destruct (as_str j10) as [s10|] eqn:E10; [|done].
  apply as_str_Ok in E1 as ->, E2 as ->, E3 as ->, E4 as ->, E5 as ->,
    E6 as ->, E7 as ->, E8 as ->, E9 as ->, E10 as ->.
  by intros [= <-].
Qed.

Lemma raw_store_catalog (lib : pydict Book) k b :
  Raw.store (raw_catalog lib) (Raw.KStr k) (JStr k) (raw_book b)
  = raw_catalog (PyDict.setitem lib k b).
Proof.
  induction lib as [|[k' b'] lib IH]; [done|].
  change (raw_catalog ((k', b') :: lib))
    with ((Raw.KStr k', (JStr k', raw_book b')) :: raw_catalog lib).
  cbn [Raw.store PyDict.setitem].
  destruct (String.eqb_spec k' k) as [->|Hne].
  - by rewrite decide_True.
  - rewrite decide_False by congruence. by rewrite IH.
Qed.

Lemma raw_find_catalog (lib : pydict Book) k :
  Raw.find (raw_catalog lib) (Raw.KStr k)
  = (λ b, (JStr k, raw_book b)) <$> PyDict.lookup lib k.
Proof.
  induction lib as [|[k' b'] lib IH]; [done|].
  change (raw_catalog ((k', b') :: lib))
    with ((Raw.KStr k', (JStr k', raw_book b')) :: raw_catalog lib).
  cbn [Raw.find PyDict.lookup].
  destruct (String.eqb_spec k' k) as [->|Hne].
  - by rewrite decide_True.
  - by rewrite decide_False by congruence.
Qed.

Lemma raw_fetch_loop_typed todo :
  ∀ title_library lib,
    fetch_loop todo title_library = Ok lib →
    Raw.fetch_loop todo (raw_catalog title_library)
    = Raw.Ok (raw_catalog lib).
Proof.
  induction todo as [|result todo IH]; intros acc lib; simpl.
  - by intros [= ->].
  - destruct (Book_of_result result) as [b|] eqn:Hb; [|done].
    rewrite (raw_Book_of_result_typed _ _ Hb).
    cbn [mbind res_bind Raw.res_bind]. unfold Raw.setitem. simpl.
    rewrite raw_store_catalog. apply IH.
Qed.

(** X21: on a response in which every value the fetch reads is a string,
    as the declared types of the fields say, the program builds the
    catalog of the typed reading: whenever the typed [get_library]
    returns a catalog, [get_library] on values of any kind returns the
    same catalog, with the same keys in the same order and the same ten
    fields in every record. *)
Theorem get_library_typed_agrees (r : response) (lib : pydict Book) :
  get_library r = Ok lib →
  Raw.get_library r = Raw.Ok (raw_catalog lib).
Proof.
  unfold get_library, Raw.get_library. destruct (status_ok r); [|done].
  destruct (json_body r) as [j|]; [|done].
  destruct (subscript j "results") as [results|] eqn:Hr; [|done].
  rewrite (raw_subscript_typed _ _ _ Hr). cbn [mbind res_bind Raw.res_bind].
  destruct (iterate results) as [todo|] eqn:Hi; [|done].
  rewrite (raw_iterate_typed _ _ Hi). cbn [mbind res_bind Raw.res_bind].
  apply (raw_fetch_loop_typed todo []).
Qed.

Lemma get_library_typed_agrees_witness :
  Raw.get_library Sample.reply_one
  = Raw.Ok (raw_catalog [("1", Sample.A1); ("4", Sample.A4)]).
Proof. apply get_library_typed_agrees. reflexivity. Defined.

Lemma raw_reindex_loop_typed todo :
  ∀ lib_asin,
    Raw.reindex_loop (raw_book <$> todo) (raw_catalog lib_asin)
    = Raw.Ok (raw_catalog (reindex_loop todo lib_asin)).
Proof.
  induction todo as [|ab todo IH]; intros acc; simpl; [done|].
  unfold truthy, Raw.contains, Raw.setitem, PyDict.contains. simpl.
  destruct (negb (String.eqb (asin ab) "")); simpl; [|apply IH].
  rewrite raw_find_catalog.
  destruct (PyDict.lookup acc (asin ab)); simpl; [apply IH|].
  change (JStr (asin ab)) with (Raw.asin (raw_book ab)) at 1.
  simpl. rewrite raw_store_catalog. apply IH.
Qed.

(** X22: on a catalog whose ids and fields are all strings, the
    reindexing of the program, which can raise on other values, never
    raises and gives the asin-keyed view of the typed reading: the same
    asins in the same order with the same records. *)
Theorem reindex_typed_agrees (lib : pydict Book) :
  Raw.reindex (raw_catalog lib) = Raw.Ok (raw_catalog (reindex lib)).
Proof.
  unfold Raw.reindex, reindex.
  replace (Raw.values (raw_catalog lib)) with (raw_book <$> PyDict.values lib).
  - apply (raw_reindex_loop_typed _ []).
  - unfold Raw.values, PyDict.values, raw_catalog.
    rewrite <- !list_fmap_compose. done.
Qed.

Lemma raw_compare_loop_typed todo (lib_one lib_two : pydict Book) :
  ∀ both_books missing_books p,
    compare_loop todo lib_one lib_two both_books missing_books = Ok p →
    Raw.compare_loop (JStr <$> todo) (raw_catalog lib_one)
      (raw_catalog lib_two) (raw_catalog both_books)
      (raw_catalog missing_books)
    = Raw.Ok {| Raw.both := raw_catalog (both p);
                Raw.missing := raw_catalog (missing p) |}.
Proof.
  induction todo as [|k todo IH]; intros bb mb p; simpl.
  - by intros [= <-].
  - unfold Raw.contains, Raw.getitem, Raw.setitem, PyDict.contains,
      PyDict.getitem. simpl. rewrite !raw_find_catalog.
    destruct (PyDict.lookup lib_one k) as [b|]; simpl;
      [|by destruct (PyDict.lookup lib_two k)].
    destruct (PyDict.lookup lib_two k); simpl;
      rewrite raw_store_catalog; apply IH.
Qed.

(** X23: on catalogs whose keys and fields are all strings, the
    comparison of the program gives the partition of the typed reading:
    the same keys in [both] and in [missing], in the same order, with the
    records of the first catalog. *)
Theorem compare_libs_typed_agrees (lib_one lib_two : pydict Book)
    (p : partition) :
  compare_libs lib_one lib_two = Ok p →
  Raw.compare_libs (raw_catalog lib_one) (raw_catalog lib_two)
  = Raw.Ok {| Raw.both := raw_catalog (both p);
              Raw.missing := raw_catalog (missing p) |}.
Proof.
  unfold compare_libs, Raw.compare_libs. intros Hp.
  replace (Raw.keys (raw_catalog lib_one))
    with (JStr <$> PyDict.keys lib_one).
  - by apply (raw_compare_loop_typed _ _ _ [] []).
  - unfold Raw.keys, PyDict.keys, raw_catalog.
    rewrite <- !list_fmap_compose. done.
Qed.

Lemma compare_libs_typed_agrees_witness :
  Raw.compare_libs (raw_catalog Sample.left) (raw_catalog Sample.right)
  = Raw.Ok {| Raw.both := raw_catalog [("X", Sample.A1)];
              Raw.missing := raw_catalog [("Y", Sample.A4)] |}.
Proof.
  apply (compare_libs_typed_agrees Sample.left Sample.right
           {| both := [("X", Sample.A1)]; missing := [("Y", Sample.A4)] |}).
  reflexivity.
Defined.
